(** * Library lending backend: books, members, borrowings

    A shallow embedding of [src/models.py] (the three tables) and of the
    request handlers of [src/main.py], followed by the properties of the
    lending rules.

    Conventions of the embedding.
    - A table is a finite map from its primary key to the remaining
      columns ([books], [members]); [borrowings] is kept in insertion
      order because it is queried on columns that are not its key and the
      handlers take the [.first()] row of such a query.
    - A [date] is its proleptic Gregorian ordinal ([date.toordinal()]), so
      that [(a - b).days] is a subtraction in [Z].
    - A handler is a function of the committed database that yields a
      result or a raised exception together with the committed database
      after the request: what a session has not committed is lost when the
      exception leaves the handler.
    - [date.today()] and the answer of the cover-image service are inputs
      of the handlers that use them. *)

From Stdlib Require Import ZArith Lia List DecimalString.
From Stdlib Require DecimalNat.
From stdpp Require Import gmap strings list fin_maps.

Open Scope string_scope.
Open Scope list_scope.
Open Scope Z_scope.

(** ** models.py *)

Module Book.
(** Row of [books]; the primary key [code] is the key of the table. *)
Record t := mk {
  title : string;
  author : string;
  stock : Z;
  borrowed : Z;
  image : string
}.
Definition set_borrowed (v : Z) (b : t) : t :=
  mk (title b) (author b) (stock b) v (image b).
Definition set_image (v : string) (b : t) : t :=
  mk (title b) (author b) (stock b) (borrowed b) v.
End Book.

Module Member.
(** Row of [members]; the primary key [code] is the key of the table.
    [penalty_end_date] is a nullable [Date] column. *)
Record t := mk {
  name : string;
  penalty_end_date : option Z
}.
Definition set_penalty_end_date (v : option Z) (m : t) : t :=
  mk (name m) v.
End Member.

Module Borrowing.
Record t := mk {
  id : string;
  member_code : string;
  book_code : string;
  borrowed_at : Z
}.
End Borrowing.

(** The committed content of the three tables. *)
Record DB := mkDB {
  books : gmap string Book.t;
  members : gmap string Member.t;
  borrowings : list Borrowing.t
}.

(** An object loaded by a query: its primary key and its row. *)
Module Loaded.
Definition t (A : Type) : Type := (string * A)%type.
Definition code {A : Type} (o : t A) : string := fst o.
Definition row {A : Type} (o : t A) : A := snd o.
End Loaded.

(** ** Exceptions, responses and the handler monad *)

Inductive exn :=
| HTTPException (status_code : Z) (detail : string)
| AttributeError
| IntegrityError
| KeyError
| OverflowError
| ClientError.

Inductive json := JInt (n : Z) | JStr (s : string).

Record JSONResponse := mkResponse {
  status_code : Z;
  content : list (string * json)
}.

Inductive res (A : Type) :=
| Return (a : A)
| Raise (e : exn).
Arguments Return {A} a.
Arguments Raise {A} e.

Definition handler (A : Type) : Type := DB -> res A * DB.

#[global] Instance handler_ret : MRet handler :=
  fun A (a : A) db => (Return a, db).

#[global] Instance handler_bind : MBind handler :=
  fun A B (f : A -> handler B) (m : handler A) db =>
    match m db with
    | (Return a, db') => f a db'
    | (Raise e, db') => (Raise e, db')
    end.

Definition raise {A : Type} (e : exn) : handler A :=
  fun db => (Raise e, db).

(** A read of the committed tables. *)
Definition query {A : Type} (q : DB -> A) : handler A :=
  fun db => (Return (q db), db).

(** [db.commit()]: the pending changes [tx] are written in one
    transaction; a constraint the store rejects ([None]) raises and
    leaves the tables as they were. *)
Definition commit (tx : DB -> option DB) : handler unit :=
  fun db =>
    match tx db with
    | Some db' => (Return tt, db')
    | None => (Raise IntegrityError, db)
    end.

(** Attribute access on the result of [.first()], which is [None] when
    no row matches. *)
Definition getattr {A B : Type} (o : option (Loaded.t A)) (f : Loaded.t A -> B)
  : handler B :=
  match o with
  | Some x => mret (f x)
  | None => raise AttributeError
  end.

(** [db.query(T).filter(T.code == c).first()] *)
Definition first_by_code {A : Type} (table : gmap string A) (c : string)
  : option (Loaded.t A) :=
  match table !! c with
  | Some r => Some (c, r)
  | None => None
  end.

(** ** Formatting *)

(** [f"{n:03}"]: decimal, padded with zeros to at least three digits. *)
Definition pad03 (s : string) : string :=
  match String.length s with
  | 0%nat => "000" +:+ s
  | 1%nat => "00" +:+ s
  | 2%nat => "0" +:+ s
  | _ => s
  end.

Definition format03 (n : nat) : string :=
  pad03 (NilZero.string_of_uint (Nat.to_uint n)).

Definition str_of_Z (z : Z) : string :=
  NilZero.string_of_int (Z.to_int z).

(** ** datetime *)

(** [date.min.toordinal()] and [date.max.toordinal()]. *)
Definition MINORDINAL : Z := 1.
Definition MAXORDINAL : Z := 3652059.

(** [d + timedelta(days=n)]: [OverflowError] outside [date.min .. date.max]
    or when the timedelta itself exceeds 999999999 days. *)
Definition date_add (d n : Z) : handler Z :=
  if (Z.abs n <=? 999999999) && (MINORDINAL <=? d + n) && (d + n <=? MAXORDINAL)
  then mret (d + n)
  else raise OverflowError.

(** ** The store *)

Definition set_books (v : gmap string Book.t) (db : DB) : DB :=
  mkDB v (members db) (borrowings db).
Definition set_members (v : gmap string Member.t) (db : DB) : DB :=
  mkDB (books db) v (borrowings db).
Definition set_borrowings (v : list Borrowing.t) (db : DB) : DB :=
  mkDB (books db) (members db) v.

(** [INSERT]: the primary key must be new. *)
Definition insert_book (c : string) (b : Book.t) (db : DB) : option DB :=
  match books db !! c with
  | Some _ => None
  | None => Some (set_books (<[c := b]> (books db)) db)
  end.

Definition insert_member (c : string) (m : Member.t) (db : DB) : option DB :=
  match members db !! c with
  | Some _ => None
  | None => Some (set_members (<[c := m]> (members db)) db)
  end.

Definition has_id (i : string) (b : Borrowing.t) : bool :=
  String.eqb (Borrowing.id b) i.

(** The member and the book a new borrowing refers to have been read by
    the handler that inserts it, so only the primary key can be refused. *)
Definition insert_borrowing (b : Borrowing.t) (db : DB) : option DB :=
  if existsb (has_id (Borrowing.id b)) (borrowings db)
  then None
  else Some (set_borrowings (borrowings db ++ [b]) db).

(** [UPDATE ... WHERE code = c] of a row that was loaded from the table. *)
Definition update_book_row (c : string) (b : Book.t) (db : DB) : DB :=
  set_books (<[c := b]> (books db)) db.

Definition update_member_row (c : string) (m : Member.t) (db : DB) : DB :=
  set_members (<[c := m]> (members db)) db.

(** [DELETE FROM borrowings WHERE id = i] *)
Definition delete_borrowing (i : string) (db : DB) : DB :=
  set_borrowings (List.filter (fun b => negb (has_id i b)) (borrowings db)) db.

Definition of_member (c : string) (b : Borrowing.t) : bool :=
  String.eqb (Borrowing.member_code b) c.

Definition of_book (c : string) (b : Borrowing.t) : bool :=
  String.eqb (Borrowing.book_code b) c.

(** [member.borrowings], the relationship over [borrowings.member_code]. *)
Definition member_borrowings (c : string) (db : DB) : list Borrowing.t :=
  List.filter (of_member c) (borrowings db).

(** [db.query(Borrowing).filter(Borrowing.member_code == m,
    Borrowing.book_code == b).first()] *)
Definition first_borrowing (m b : string) (db : DB) : option Borrowing.t :=
  List.find (fun x => of_member m x && of_book b x) (borrowings db).

(** ** main.py *)

Definition message_response (status : Z) (message : string) : JSONResponse :=
  mkResponse status [("status_code", JInt status); ("message", JStr message)].

Definition get_default_error_response : JSONResponse :=
  message_response 500 "Internal Server Error".

(** What the cover-image service answers to the search request:
    [session.get], [raise_for_status] or [response.json] raises, or a JSON
    document arrives; a key of a JSON object may be absent. *)
Record doc := mkDoc { cover_i : option Z }.

Record search_result := mkSearch {
  numFound : option Z;
  docs : option (list doc)
}.

Inductive lookup :=
| LookupRaises
| LookupJson (data : search_result).

Definition fetch (l : lookup) : handler search_result :=
  match l with
  | LookupRaises => raise ClientError
  | LookupJson data => mret data
  end.

(** [d[k]] on a JSON object. *)
Definition getitem {A : Type} (o : option A) : handler A :=
  match o with
  | Some x => mret x
  | None => raise KeyError
  end.

(** The first document of the list that has a ["cover_i"] key. *)
Fixpoint first_cover (ds : list doc) : option Z :=
  match ds with
  | [] => None
  | d :: ds' =>
      match cover_i d with
      | Some c => Some c
      | None => first_cover ds'
      end
  end.

Definition cover_image_url (c : Z) : string :=
  "https://covers.openlibrary.org/b/id/" +:+ str_of_Z c +:+ "-L.jpg".

Definition create_book (code title author : string) (stock : Z) (l : lookup)
  : handler JSONResponse :=
  let book := Book.mk title author stock 0 EmptyString in
  commit (insert_book code book) ;;
  data ← fetch l ;
  n ← getitem (numFound data) ;
  image ← (if n >? 0 then
             ds ← getitem (docs data) ;
             match first_cover ds with
             | Some c =>
                 let url := cover_image_url c in
                 commit (fun db => Some (update_book_row code (Book.set_image url book) db)) ;;
                 mret url
             | None => mret (Book.image book)
             end
           else mret (Book.image book)) ;
  mret (mkResponse 200 [("status_code", JInt 200);
                        ("message", JStr "Book created");
                        ("image", JStr image)]).

Definition update_book (code title author : string) (stock : Z)
  : handler JSONResponse :=
  book ← query (fun db => first_by_code (books db) code) ;
  match book with
  | None => raise (HTTPException 404 "Book not found")
  | Some book =>
      let r := Loaded.row book in
      commit (fun db => Some (update_book_row (Loaded.code book)
                (Book.mk title author stock (Book.borrowed r) (Book.image r)) db)) ;;
      mret (message_response 200 "Book updated")
  end.

Section Store.

(** Whether the storage engine behind [DATABASE_URL] enforces the
    foreign keys that [models.py] declares on [borrowings]. The engine
    is chosen by the environment of the service, not by the source. *)
Variable foreign_keys : bool.

(** [DELETE FROM books WHERE code = c]. [Book] has no relationship to
    [Borrowing], so the session emits nothing for the borrowings; an
    engine that enforces [borrowings.book_code -> books.code] refuses
    the statement while a borrowing refers to the book. *)
Definition delete_book_row (c : string) (db : DB) : option DB :=
  if foreign_keys && existsb (of_book c) (borrowings db)
  then None
  else Some (set_books (delete c (books db)) db).

Definition delete_book (code : string) : handler JSONResponse :=
  book ← query (fun db => first_by_code (books db) code) ;
  match book with
  | None => raise (HTTPException 404 "Book not found")
  | Some book =>
      commit (delete_book_row (Loaded.code book)) ;;
      mret (message_response 200 "Book deleted")
  end.

End Store.

Definition create_member (name : string) : handler JSONResponse :=
  n ← query (fun db => size (members db)) ;
  let member_code := "M" +:+ format03 (n + 1) in
  commit (insert_member member_code (Member.mk name None)) ;;
  mret (mkResponse 200 [("status_code", JInt 200);
                        ("message", JStr "Member created");
                        ("member_code", JStr member_code)]).

(** [member.penalty_end_date and member.penalty_end_date > date.today()] *)
Definition penalized (today : Z) (m : Member.t) : bool :=
  match Member.penalty_end_date m with
  | Some d => d >? today
  | None => false
  end.

Definition borrow_book (today : Z) (member_code book_code : string)
  : handler JSONResponse :=
  member ← query (fun db => first_by_code (members db) member_code) ;
  book ← query (fun db => first_by_code (books db) book_code) ;
  match member with
  | None => raise (HTTPException 404 "Member not found")
  | Some member =>
  match book with
  | None => raise (HTTPException 404 "Book not found")
  | Some book =>
  if Book.borrowed (Loaded.row book) >=? Book.stock (Loaded.row book)
  then raise (HTTPException 400 "Book is currently out of stock") else
  held ← query (member_borrowings (Loaded.code member)) ;
  (* len(member.borrowings) >= 2 *)
  if (2 <=? length held)%nat
  then raise (HTTPException 400 "Member cannot borrow more than 2 books") else
  if penalized today (Loaded.row member)
  then raise (HTTPException 400 "Member is currently penalized") else
  existing_borrowing ← query (first_borrowing member_code book_code) ;
  match existing_borrowing with
  | Some _ => raise (HTTPException 400 "Member has already borrowed this book")
  | None =>
      n ← query (fun db => length (borrowings db)) ;
      let borrowing_id := "B" +:+ format03 (n + 1) in
      let borrowing := Borrowing.mk borrowing_id (Loaded.code member) (Loaded.code book) today in
      commit (fun db =>
        db' ← insert_borrowing borrowing db ;
        Some (update_book_row (Loaded.code book)
                (Book.set_borrowed (Book.borrowed (Loaded.row book) + 1) (Loaded.row book)) db')) ;;
      mret (mkResponse 200 [("status_code", JInt 200);
                            ("message", JStr "Book borrowed");
                            ("borrowing_id", JStr borrowing_id)])
  end
  end
  end.

Definition return_book (today : Z) (member_code book_code : string)
  : handler JSONResponse :=
  member ← query (fun db => first_by_code (members db) member_code) ;
  book ← query (fun db => first_by_code (books db) book_code) ;
  (* the filter of the third query reads member.code and book.code *)
  mc ← getattr member Loaded.code ;
  bc ← getattr book Loaded.code ;
  borrowing ← query (first_borrowing mc bc) ;
  match member with
  | None => raise (HTTPException 404 "Member not found")
  | Some member =>
  match book with
  | None => raise (HTTPException 404 "Book not found")
  | Some book =>
  match borrowing with
  | None => raise (HTTPException 400 "Book is not borrowed by this member")
  | Some borrowing =>
      let days_overdue := (today - Borrowing.borrowed_at borrowing) - 7 in
      penalty ← (if days_overdue >? 0 then
                   let penalty_days := days_overdue * 3 in
                   d ← date_add today penalty_days ;
                   mret (Some d)
                 else mret None) ;
      commit (fun db =>
        let db1 := match penalty with
                   | Some d => update_member_row (Loaded.code member)
                                 (Member.set_penalty_end_date (Some d) (Loaded.row member)) db
                   | None => db
                   end in
        let db2 := delete_borrowing (Borrowing.id borrowing) db1 in
        Some (update_book_row (Loaded.code book)
                (Book.set_borrowed (Book.borrowed (Loaded.row book) - 1) (Loaded.row book)) db2)) ;;
      mret (message_response 200 "Book returned")
  end
  end
  end.

(** ** The application *)

Inductive request :=
| CreateBook (code title author : string) (stock : Z) (l : lookup)
| UpdateBook (code title author : string) (stock : Z)
| DeleteBook (code : string)
| CreateMember (name : string)
| BorrowBook (member_code book_code : string)
| ReturnBook (member_code book_code : string).

(** [foreign_keys] is the engine's setting and [today] the date of the
    request. *)
Definition route (foreign_keys : bool) (today : Z) (r : request)
  : handler JSONResponse :=
  match r with
  | CreateBook c t a s l => create_book c t a s l
  | UpdateBook c t a s => update_book c t a s
  | DeleteBook c => delete_book foreign_keys c
  | CreateMember n => create_member n
  | BorrowBook m b => borrow_book today m b
  | ReturnBook m b => return_book today m b
  end.

(** An [HTTPException] is answered with its status and detail; every
    other exception reaches [exception_handler]. *)
Definition respond (r : res JSONResponse) : JSONResponse :=
  match r with
  | Return resp => resp
  | Raise (HTTPException s d) => mkResponse s [("detail", JStr d)]
  | Raise _ => get_default_error_response
  end.

Definition app (h : handler JSONResponse) (db : DB) : JSONResponse * DB :=
  let (r, db') := h db in (respond r, db').

(** ** Error kinds *)

Definition NotFound_member : exn := HTTPException 404 "Member not found".
Definition NotFound_book : exn := HTTPException 404 "Book not found".
Definition OutOfStock : exn := HTTPException 400 "Book is currently out of stock".
Definition BorrowLimitExceeded : exn :=
  HTTPException 400 "Member cannot borrow more than 2 books".
Definition MemberPenalized : exn := HTTPException 400 "Member is currently penalized".
Definition DuplicateBorrowing : exn :=
  HTTPException 400 "Member has already borrowed this book".
Definition NotBorrowed : exn := HTTPException 400 "Book is not borrowed by this member".
Definition InternalError : JSONResponse := get_default_error_response.


(** ** Outcomes of the two transactions *)

Definition borrowed_response (borrowing_id : string) : JSONResponse :=
  mkResponse 200 [("status_code", JInt 200);
                  ("message", JStr "Book borrowed");
                  ("borrowing_id", JStr borrowing_id)].

Definition next_borrowing_id (db : DB) : string :=
  "B" +:+ format03 (length (borrowings db) + 1).

(** The tables after a borrowing that the store accepted. *)
Definition borrowed_db (today : Z) (m b : string) (bk : Book.t) (db : DB) : DB :=
  update_book_row b (Book.set_borrowed (Book.borrowed bk + 1) bk)
    (set_borrowings
       (borrowings db ++ [Borrowing.mk (next_borrowing_id db) m b today]) db).

Definition returned_response : JSONResponse :=
  message_response 200 "Book returned".

(** [days_overdue] of [return_book] for a borrowing. *)
Definition days_overdue (today : Z) (br : Borrowing.t) : Z :=
  (today - Borrowing.borrowed_at br) - 7.

(** The tables after a return that the store accepted; [penalty] is the
    new [penalty_end_date] when the return assigns one. *)
Definition returned_db (penalty : option Z) (m b : string)
  (mem : Member.t) (bk : Book.t) (br : Borrowing.t) (db : DB) : DB :=
  update_book_row b (Book.set_borrowed (Book.borrowed bk - 1) bk)
    (delete_borrowing (Borrowing.id br)
       match penalty with
       | Some d => update_member_row m (Member.set_penalty_end_date (Some d) mem) db
       | None => db
       end).

(** Whether [today + timedelta(days=n)] is a date. *)
Definition date_add_ok (d n : Z) : bool :=
  (Z.abs n <=? 999999999) && (MINORDINAL <=? d + n) && (d + n <=? MAXORDINAL).

(** ** The preconditions of a borrowing, as the specification lists them *)

Inductive precondition :=
| MemberExists
| BookExists
| InStock
| UnderLimit
| NotPenalized
| NoDuplicate.

(** "Preconditions checked in order, first failure wins". *)
Definition preconditions : list precondition :=
  [MemberExists; BookExists; InStock; UnderLimit; NotPenalized; NoDuplicate].

Definition error_of (c : precondition) : exn :=
  match c with
  | MemberExists => NotFound_member
  | BookExists => NotFound_book
  | InStock => OutOfStock
  | UnderLimit => BorrowLimitExceeded
  | NotPenalized => MemberPenalized
  | NoDuplicate => DuplicateBorrowing
  end.

(** Whether a precondition holds of a request; one that speaks about a
    row that does not exist holds vacuously. *)
Definition holds (today : Z) (m b : string) (db : DB) (c : precondition) : bool :=
  match c with
  | MemberExists => bool_decide (is_Some (members db !! m))
  | BookExists => bool_decide (is_Some (books db !! b))
  | InStock =>
      match books db !! b with
      | Some bk => Book.borrowed bk <? Book.stock bk
      | None => true
      end
  | UnderLimit => (length (member_borrowings m db) <? 2)%nat
  | NotPenalized =>
      match members db !! m with
      | Some mem => negb (penalized today mem)
      | None => true
      end
  | NoDuplicate =>
      match first_borrowing m b db with
      | Some _ => false
      | None => true
      end
  end.

Definition first_failure (today : Z) (m b : string) (db : DB) : option exn :=
  match List.find (fun c => negb (holds today m b db c)) preconditions with
  | Some c => Some (error_of c)
  | None => None
  end.

(** ** Sample data *)

Definition today0 : Z := 739925.

Definition harry_potter : Book.t := Book.mk "Harry Potter" "J.K Rowling" 1 0 EmptyString.
Definition twilight : Book.t := Book.mk "Twilight" "Stephenie Meyer" 2 1 EmptyString.

Definition angga : Member.t := Member.mk "Angga" (Some today0).
Definition ferry : Member.t := Member.mk "Ferry" None.
Definition putri : Member.t := Member.mk "Putri" (Some (today0 + 5)).

Definition sample_db : DB :=
  mkDB (<["TW-11" := twilight]> {["JK-45" := harry_potter]})
       (<["M003" := putri]> (<["M002" := ferry]> {["M001" := angga]}))
       [Borrowing.mk "B001" "M002" "TW-11" (today0 - 15)].

(** A store in which Ferry holds Twilight since [k] days. *)
Definition lent_db (k : Z) : DB :=
  mkDB (<["TW-11" := twilight]> {["JK-45" := harry_potter]})
       (<["M003" := putri]> (<["M002" := ferry]> {["M001" := angga]}))
       [Borrowing.mk "B001" "M003" "TW-11" (today0 - k)].

(** ** The stock invariant *)

Definition book_invariant (bk : Book.t) : Prop :=
  0 <= Book.borrowed bk <= Book.stock bk.

Definition stock_invariant (db : DB) : Prop :=
  map_Forall (fun _ bk => book_invariant bk) (books db).

#[global] Instance book_invariant_dec bk : Decision (book_invariant bk).
Proof. unfold book_invariant. apply _. Defined.

#[global] Instance stock_invariant_dec db : Decision (stock_invariant db).
Proof. unfold stock_invariant. apply _. Defined.

(** The requests whose arguments the handlers store or apply unchecked,
    with what the argument has to satisfy for the invariant to survive:
    the stock of a new book is not negative, the new stock of an updated
    book is not below its borrowed count, and a returned book has a copy
    out. *)
Definition admissible (db : DB) (r : request) : Prop :=
  match r with
  | CreateBook _ _ _ s _ => 0 <= s
  | UpdateBook c _ _ s =>
      forall bk, books db !! c = Some bk -> Book.borrowed bk <= s
  | ReturnBook _ b =>
      forall bk, books db !! b = Some bk -> 1 <= Book.borrowed bk
  | DeleteBook _ | CreateMember _ | BorrowBook _ _ => True
  end.

Definition empty_db : DB := mkDB ∅ ∅ [].

Definition created_response (image : string) : JSONResponse :=
  mkResponse 200 [("status_code", JInt 200);
                  ("message", JStr "Book created");
                  ("image", JStr image)].

(** The tables once the new book is committed, before the lookup. *)
Definition created_db (c t a : string) (s : Z) (db : DB) : DB :=
  set_books (<[c := Book.mk t a s 0 EmptyString]> (books db)) db.

(** ** Failures of the cover-image lookup *)



(** ** Reading a generated code back *)

(** [int(s)] on a string of decimal digits. *)
Definition parse_nat (s : string) : option nat :=
  match NilEmpty.uint_of_string s with
  | Some d => Some (Nat.of_uint d)
  | None => None
  end.

Definition member_code_of (n : nat) : string := "M" +:+ format03 n.

(** ** Committed changes *)

(** What one request can commit: nothing, or the change of one handler
    with the conditions under which the handler commits it. *)
Inductive step (fk : bool) (today : Z) (db : DB) : DB -> Prop :=
| step_none : step fk today db db
| step_create_book c t a s i :
    books db !! c = None ->
    step fk today db (set_books (<[c := Book.mk t a s 0 i]> (books db)) db)
| step_update_book c t a s bk :
    books db !! c = Some bk ->
    step fk today db
      (update_book_row c (Book.mk t a s (Book.borrowed bk) (Book.image bk)) db)
| step_delete_book c bk :
    books db !! c = Some bk ->
    fk && existsb (of_book c) (borrowings db) = false ->
    step fk today db (set_books (delete c (books db)) db)
| step_create_member n :
    members db !! member_code_of (size (members db) + 1) = None ->
    step fk today db
      (set_members (<[member_code_of (size (members db) + 1) := Member.mk n None]>
                      (members db)) db)
| step_borrow m b mem bk :
    members db !! m = Some mem ->
    books db !! b = Some bk ->
    Book.borrowed bk < Book.stock bk ->
    (length (member_borrowings m db) < 2)%nat ->
    penalized today mem = false ->
    first_borrowing m b db = None ->
    existsb (has_id (next_borrowing_id db)) (borrowings db) = false ->
    step fk today db (borrowed_db today m b bk db)
| step_return m b mem bk br p :
    members db !! m = Some mem ->
    books db !! b = Some bk ->
    first_borrowing m b db = Some br ->
    (days_overdue today br <= 0 /\ p = None) \/
    (0 < days_overdue today br /\ p = Some (today + days_overdue today br * 3)) ->
    step fk today db (returned_db p m b mem bk br db).

(** The tables after a sequence of requests, each on its day. *)
Definition run (fk : bool) (rs : list (Z * request)) (db : DB) : DB :=
  fold_left (fun d tr => snd (route fk (fst tr) (snd tr) d)) rs db.

(** ** Invariants of the borrowings *)

Definition same_pair (m b : string) (x : Borrowing.t) : bool :=
  of_member m x && of_book b x.

(** The primary key of [borrowings]. *)
Definition unique_ids (db : DB) : Prop :=
  NoDup (map Borrowing.id (borrowings db)).

(** No member holds more than two borrowings. *)
Definition borrow_limit (db : DB) : Prop :=
  Forall (fun x => (length (member_borrowings (Borrowing.member_code x) db) <= 2)%nat)
    (borrowings db).

(** No member holds the same book twice. *)
Definition no_duplicate_pairs (db : DB) : Prop :=
  Forall (fun x =>
            (length (List.filter
                       (same_pair (Borrowing.member_code x) (Borrowing.book_code x))
                       (borrowings db)) <= 1)%nat)
    (borrowings db).

(** Every borrowing refers to a stored member and a stored book. *)
Definition referential (db : DB) : Prop :=
  Forall (fun x => is_Some (members db !! Borrowing.member_code x) /\
                   is_Some (books db !! Borrowing.book_code x))
    (borrowings db).

Definition book_borrowings (c : string) (db : DB) : list Borrowing.t :=
  List.filter (of_book c) (borrowings db).

(** [borrowed] counts the borrowings of the book. *)
Definition borrowed_counts (db : DB) : Prop :=
  map_Forall (fun c bk => Book.borrowed bk = Z.of_nat (length (book_borrowings c db)))
    (books db).

Definition consistent (db : DB) : Prop :=
  unique_ids db /\ referential db /\ borrowed_counts db.

(** The member codes are those of the first [size] creations. *)
Definition sequential_members (db : DB) : Prop :=
  dom (members db) =
    list_to_set (map member_code_of (seq 1 (size (members db)))).

#[global] Instance sequential_members_dec db : Decision (sequential_members db).
Proof. unfold sequential_members. apply _. Defined.

#[global] Instance unique_ids_dec db : Decision (unique_ids db).
Proof. unfold unique_ids. apply _. Defined.

#[global] Instance borrow_limit_dec db : Decision (borrow_limit db).
Proof. unfold borrow_limit. apply _. Defined.

#[global] Instance no_duplicate_pairs_dec db : Decision (no_duplicate_pairs db).
Proof. unfold no_duplicate_pairs. apply _. Defined.

#[global] Instance referential_dec db : Decision (referential db).
Proof. unfold referential. apply _. Defined.

#[global] Instance borrowed_counts_dec db : Decision (borrowed_counts db).
Proof. unfold borrowed_counts. apply _. Defined.

#[global] Instance consistent_dec db : Decision (consistent db).
Proof. unfold consistent. apply _. Defined.

Definition member_created_response (member_code : string) : JSONResponse :=
  mkResponse 200 [("status_code", JInt 200);
                  ("message", JStr "Member created");
                  ("member_code", JStr member_code)].

(** A day of requests on an empty store: two books, three members, three
    borrowings, one return and a borrowing refused for the limit. *)
Definition sample_requests : list (Z * request) :=
  [(today0, CreateBook "JK-45" "Harry Potter" "J.K Rowling" 1
              (LookupJson (mkSearch (Some 1) (Some [mkDoc None; mkDoc (Some 42)]))));
   (today0, CreateBook "TW-11" "Twilight" "Stephenie Meyer" 2 LookupRaises);
   (today0, CreateBook "NH-1" "A Study in Scarlet" "Arthur Conan Doyle" 1
              (LookupJson (mkSearch (Some 0) None)));
   (today0, CreateMember "Angga");
   (today0, CreateMember "Ferry");
   (today0, CreateMember "Putri");
   (today0, BorrowBook "M001" "JK-45");
   (today0, BorrowBook "M001" "TW-11");
   (today0, BorrowBook "M002" "TW-11");
   (today0 + 1, BorrowBook "M001" "NH-1");
   (today0 + 9, ReturnBook "M001" "JK-45");
   (today0 + 9, UpdateBook "TW-11" "Twilight" "S. Meyer" 3)].

(** A day on which the second of two borrowings is the one left after a
    return, so that the count of rows names an id that is in use. *)
Definition collision_requests : list (Z * request) :=
  [(today0, CreateBook "JK-45" "Harry Potter" "J.K Rowling" 1 LookupRaises);
   (today0, CreateBook "TW-11" "Twilight" "Stephenie Meyer" 2 LookupRaises);
   (today0, CreateMember "Angga");
   (today0, CreateMember "Ferry");
   (today0, BorrowBook "M001" "JK-45");
   (today0, BorrowBook "M002" "TW-11");
   (today0 + 1, ReturnBook "M001" "JK-45")].

(** ** The listings of main.py *)

(** [JSONResponse(status_code=200, content={key: items})]; an item is the
    JSON object of one row, given by its fields. *)
Record Listing (A : Type) := mkListing {
  listing_status : Z;
  listing_key : string;
  listing_items : list A
}.
Arguments mkListing {A} _ _ _.
Arguments listing_status {A} _.
Arguments listing_key {A} _.
Arguments listing_items {A} _.

Module BookItem.
Record t := mk {
  code : string;
  title : string;
  author : string;
  stock : Z;
  borrowed : Z;
  image : string;
  available_to_borrow : Z
}.
End BookItem.

Module MemberItem.
Record t := mk {
  code : string;
  name : string;
  penalty_end_date : option string;
  total_borrowed : Z
}.
End MemberItem.

Module BorrowingItem.
Record t := mk {
  id : string;
  member_name : option string;
  member_code : string;
  book_title : option string;
  book_code : string;
  borrowed_at : option string
}.
End BorrowingItem.

Definition book_item (o : Loaded.t Book.t) : BookItem.t :=
  let book := Loaded.row o in
  BookItem.mk (Loaded.code o) (Book.title book) (Book.author book)
    (Book.stock book) (Book.borrowed book) (Book.image book)
    (Book.stock book - Book.borrowed book).

Definition get_books : handler (Listing BookItem.t) :=
  books ← query (fun db => map_to_list (books db)) ;
  mret (mkListing 200 "books" (map book_item books)).

Section Listings.

(** [date.isoformat] of the standard library, on the ordinal of a date. *)
Variable isoformat : Z -> string.

Definition member_item (db : DB) (o : Loaded.t Member.t) : MemberItem.t :=
  let member := Loaded.row o in
  MemberItem.mk (Loaded.code o) (Member.name member)
    (match Member.penalty_end_date member with
     | Some d => Some (isoformat d)
     | None => None
     end)
    (Z.of_nat (length (member_borrowings (Loaded.code o) db))).

Definition get_members : handler (Listing MemberItem.t) :=
  members ← query (fun db => map (member_item db) (map_to_list (members db))) ;
  mret (mkListing 200 "members" members).

(** [borrow.member] and [borrow.book] are the rows the foreign keys name,
    or [None]. *)
Definition borrowing_item (db : DB) (borrow : Borrowing.t) : BorrowingItem.t :=
  let member := first_by_code (members db) (Borrowing.member_code borrow) in
  let book := first_by_code (books db) (Borrowing.book_code borrow) in
  BorrowingItem.mk (Borrowing.id borrow)
    (match member with
     | Some o => Some (Member.name (Loaded.row o))
     | None => None
     end)
    (Borrowing.member_code borrow)
    (match book with
     | Some o => Some (Book.title (Loaded.row o))
     | None => None
     end)
    (Borrowing.book_code borrow)
    (Some (isoformat (Borrowing.borrowed_at borrow))).

Definition get_borrowings : handler (Listing BorrowingItem.t) :=
  data ← query (fun db => map (borrowing_item db) (borrowings db)) ;
  mret (mkListing 200 "borrowings" data).

End Listings.

(** * Properties *)

(** ** Generated codes *)

Example format03_1 : format03 1 = "001".
Proof. reflexivity. Qed.

Example format03_14 : format03 14 = "014".
Proof. reflexivity. Qed.

Example format03_1000 : format03 1000 = "1000".
Proof. reflexivity. Qed.

Example cover_image_url_42 :
  cover_image_url 42 = "https://covers.openlibrary.org/b/id/42-L.jpg".
Proof. reflexivity. Qed.

(** ** The handlers, case by case *)

Lemma borrow_book_unfold today m b db :
  borrow_book today m b db =
  match members db !! m with
  | None => (Raise NotFound_member, db)
  | Some mem =>
    match books db !! b with
    | None => (Raise NotFound_book, db)
    | Some bk =>
      if Book.stock bk <=? Book.borrowed bk then (Raise OutOfStock, db)
      else if (2 <=? length (member_borrowings m db))%nat
      then (Raise BorrowLimitExceeded, db)
      else if penalized today mem then (Raise MemberPenalized, db)
      else match first_borrowing m b db with
           | Some _ => (Raise DuplicateBorrowing, db)
           | None =>
             if existsb (has_id (next_borrowing_id db)) (borrowings db)
             then (Raise IntegrityError, db)
             else (Return (borrowed_response (next_borrowing_id db)),
                   borrowed_db today m b bk db)
           end
    end
  end.
Proof.
  unfold borrow_book, mbind, handler_bind, query, first_by_code, raise.
  destruct (members db !! m) as [mem|]; [|reflexivity].
  destruct (books db !! b) as [bk|]; [|reflexivity].
  cbn [Loaded.row Loaded.code fst snd]. rewrite Z.geb_leb.
  destruct (Book.stock bk <=? Book.borrowed bk); [reflexivity|].
  destruct (2 <=? length (member_borrowings m db))%nat; [reflexivity|].
  destruct (penalized today mem); [reflexivity|].
  destruct (first_borrowing m b db); [reflexivity|].
  unfold commit, insert_borrowing, next_borrowing_id, borrowed_db.
  cbn [Borrowing.id mbind option_bind].
  destruct (existsb _ (borrowings db)); reflexivity.
Qed.

Lemma return_book_unfold today m b db :
  return_book today m b db =
  match members db !! m with
  | None => (Raise AttributeError, db)
  | Some mem =>
    match books db !! b with
    | None => (Raise AttributeError, db)
    | Some bk =>
      match first_borrowing m b db with
      | None => (Raise NotBorrowed, db)
      | Some br =>
        if 0 <? days_overdue today br then
          if date_add_ok today (days_overdue today br * 3)
          then (Return returned_response,
                returned_db (Some (today + days_overdue today br * 3)) m b mem bk br db)
          else (Raise OverflowError, db)
        else (Return returned_response, returned_db None m b mem bk br db)
      end
    end
  end.
Proof.
  unfold return_book, mbind, handler_bind, query, first_by_code, getattr, raise.
  destruct (members db !! m) as [mem|]; [|reflexivity].
  destruct (books db !! b) as [bk|]; [|reflexivity].
  cbn [Loaded.row Loaded.code fst snd mret handler_ret].
  destruct (first_borrowing m b db) as [br|]; [|reflexivity].
  fold (days_overdue today br). rewrite Z.gtb_ltb.
  destruct (0 <? days_overdue today br); [|reflexivity].
  unfold date_add. fold (date_add_ok today (days_overdue today br * 3)).
  destruct (date_add_ok today (days_overdue today br * 3)); reflexivity.
Qed.

(** ** The penalty check of a borrowing *)

(** C1 (as amended): a borrowing that reaches the penalty check, the member
    and the book existing, a copy being in stock and the member holding
    fewer than two books, is rejected with MemberPenalized exactly when
    penalty_end_date is set and strictly later than today; a
    penalty_end_date that is null, earlier than today or equal to today
    passes the check. *)
Theorem borrow_book_penalty_check today m b db mem bk :
  members db !! m = Some mem ->
  books db !! b = Some bk ->
  Book.borrowed bk < Book.stock bk ->
  (length (member_borrowings m db) < 2)%nat ->
  (fst (borrow_book today m b db) = Raise MemberPenalized <->
   exists d, Member.penalty_end_date mem = Some d /\ today < d) /\
  (Member.penalty_end_date mem = Some today ->
   fst (borrow_book today m b db) <> Raise MemberPenalized).
Proof.
  intros Hm Hb Hstock Hheld.
  assert (Hiff : fst (borrow_book today m b db) = Raise MemberPenalized <->
                 penalized today mem = true).
  { rewrite borrow_book_unfold, Hm, Hb.
    destruct (Z.leb_spec (Book.stock bk) (Book.borrowed bk)) as [?|_]; [lia|].
    destruct (Nat.leb_spec 2 (length (member_borrowings m db))) as [?|_]; [lia|].
    destruct (penalized today mem); [easy|].
    destruct (first_borrowing m b db); [easy|].
    destruct (existsb _ _); easy. }
  assert (Hpen : penalized today mem = true <->
                 exists d, Member.penalty_end_date mem = Some d /\ today < d).
  { unfold penalized. destruct (Member.penalty_end_date mem) as [d|].
    - rewrite Z.gtb_ltb, Z.ltb_lt. split.
      + intros H. exists d. split; [reflexivity|exact H].
      + intros (d' & Hd' & Hlt). injection Hd' as ->. exact Hlt.
    - split; [discriminate|]. intros (d' & Hd' & _). discriminate. }
  split.
  - rewrite Hiff. exact Hpen.
  - intros Htoday Hres. apply Hiff, Hpen in Hres.
    destruct Hres as (d & Hd & Hlt). rewrite Htoday in Hd.
    injection Hd as <-. lia.
Qed.

Lemma borrow_book_penalty_check_witness :
  (fst (borrow_book today0 "M003" "JK-45" sample_db) = Raise MemberPenalized <->
   exists d, Member.penalty_end_date putri = Some d /\ today0 < d) /\
  (Member.penalty_end_date putri = Some today0 ->
   fst (borrow_book today0 "M003" "JK-45" sample_db) <> Raise MemberPenalized).
Proof.
  apply (borrow_book_penalty_check today0 "M003" "JK-45" sample_db putri harry_potter).
  - vm_compute. reflexivity.
  - vm_compute. reflexivity.
  - vm_compute. reflexivity.
  - vm_compute. lia.
Defined.

(** C1, as stated, fails: a member whose penalty_end_date is today borrows
    a book. *)
Lemma borrow_on_penalty_end_date :
  members sample_db !! "M001" = Some angga /\
  Member.penalty_end_date angga = Some today0 /\
  fst (borrow_book today0 "M001" "JK-45" sample_db) =
    Return (borrowed_response "B002").
Proof. vm_compute. repeat split. Qed.

(** ** When a borrowing is accepted *)

Lemma borrow_book_success today m b db mem bk :
  members db !! m = Some mem ->
  books db !! b = Some bk ->
  Book.borrowed bk < Book.stock bk ->
  (length (member_borrowings m db) < 2)%nat ->
  penalized today mem = false ->
  first_borrowing m b db = None ->
  existsb (has_id (next_borrowing_id db)) (borrowings db) = false ->
  borrow_book today m b db =
    (Return (borrowed_response (next_borrowing_id db)), borrowed_db today m b bk db).
Proof.
  intros Hm Hb Hstock Hheld Hpen Hdup Hfresh.
  rewrite borrow_book_unfold, Hm, Hb, Hpen, Hdup, Hfresh.
  destruct (Z.leb_spec (Book.stock bk) (Book.borrowed bk)) as [?|_]; [lia|].
  destruct (Nat.leb_spec 2 (length (member_borrowings m db))) as [?|_]; [lia|].
  reflexivity.
Qed.

Lemma borrow_book_inv today m b db r db' :
  borrow_book today m b db = (Return r, db') ->
  exists mem bk,
    members db !! m = Some mem /\
    books db !! b = Some bk /\
    Book.borrowed bk < Book.stock bk /\
    (length (member_borrowings m db) < 2)%nat /\
    penalized today mem = false /\
    first_borrowing m b db = None /\
    existsb (has_id (next_borrowing_id db)) (borrowings db) = false /\
    r = borrowed_response (next_borrowing_id db) /\
    db' = borrowed_db today m b bk db.
Proof.
  rewrite borrow_book_unfold.
  destruct (members db !! m) as [mem|]; [|discriminate].
  destruct (books db !! b) as [bk|]; [|discriminate].
  destruct (Z.leb_spec (Book.stock bk) (Book.borrowed bk)) as [?|Hstock]; [discriminate|].
  destruct (Nat.leb_spec 2 (length (member_borrowings m db))) as [?|Hheld]; [discriminate|].
  destruct (penalized today mem) eqn:Hpen; [discriminate|].
  destruct (first_borrowing m b db) eqn:Hdup; [discriminate|].
  destruct (existsb _ _) eqn:Hfresh; [discriminate|].
  intros [= <- <-]. exists mem, bk. repeat split; auto.
Qed.

Lemma borrowed_db_book today m b bk db :
  books (borrowed_db today m b bk db) !! b =
    Some (Book.set_borrowed (Book.borrowed bk + 1) bk).
Proof. unfold borrowed_db, update_book_row, set_books; cbn. apply lookup_insert_eq. Qed.

Lemma borrowed_db_members today m b bk db :
  members (borrowed_db today m b bk db) = members db.
Proof. reflexivity. Qed.

(** ** The stock check of a borrowing *)

(** C6: for an existing member and book, a borrowing is rejected with
    OutOfStock exactly when borrowed >= stock, which under borrowed <= stock
    is borrowed = stock, and it passes the stock check exactly when
    borrowed < stock; with stock 1 and borrowed 0 a borrowing whose other
    preconditions hold succeeds and stores borrowed = 1, after which a
    borrowing of the same book by any existing member is rejected with
    OutOfStock. *)
Theorem borrow_book_stock_check today m b db mem bk :
  members db !! m = Some mem ->
  books db !! b = Some bk ->
  (Book.borrowed bk <= Book.stock bk ->
   (fst (borrow_book today m b db) = Raise OutOfStock <->
    Book.borrowed bk = Book.stock bk)) /\
  (fst (borrow_book today m b db) <> Raise OutOfStock <->
   Book.borrowed bk < Book.stock bk) /\
  (Book.stock bk = 1 -> Book.borrowed bk = 0 ->
   (length (member_borrowings m db) < 2)%nat ->
   penalized today mem = false ->
   first_borrowing m b db = None ->
   existsb (has_id (next_borrowing_id db)) (borrowings db) = false ->
   exists r db',
     borrow_book today m b db = (Return r, db') /\
     status_code r = 200 /\
     Book.borrowed <$> books db' !! b = Some 1 /\
     Book.stock <$> books db' !! b = Some 1 /\
     forall today' m', m' <> m -> is_Some (members db !! m') ->
       borrow_book today' m' b db' = (Raise OutOfStock, db')).
Proof.
  intros Hm Hb.
  assert (Hiff : fst (borrow_book today m b db) = Raise OutOfStock <->
                 Book.stock bk <= Book.borrowed bk).
  { rewrite borrow_book_unfold, Hm, Hb.
    destruct (Z.leb_spec (Book.stock bk) (Book.borrowed bk)) as [Hle|Hlt]; [easy|].
    split; [|lia].
    destruct (2 <=? _)%nat; [easy|].
    destruct (penalized today mem); [easy|].
    destruct (first_borrowing m b db); [easy|].
    destruct (existsb _ _); easy. }
  split; [|split].
  - intros Hle. rewrite Hiff. lia.
  - rewrite Hiff. lia.
  - intros Hs Hbw Hheld Hpen Hdup Hfresh.
    eexists _, _. split.
    { apply (borrow_book_success today m b db mem bk); auto. lia. }
    split; [reflexivity|].
    rewrite borrowed_db_book. cbn. rewrite Hs, Hbw.
    split; [reflexivity|]. split; [reflexivity|].
    intros today' m' _ [mem' Hm'].
    rewrite borrow_book_unfold, borrowed_db_members, Hm', borrowed_db_book.
    cbn. rewrite Hs, Hbw. reflexivity.
Qed.

Lemma borrow_book_stock_check_witness :
  exists r db',
    borrow_book today0 "M001" "JK-45" sample_db = (Return r, db') /\
    status_code r = 200 /\
    Book.borrowed <$> books db' !! "JK-45" = Some 1 /\
    Book.stock <$> books db' !! "JK-45" = Some 1 /\
    forall today' m', m' <> "M001" -> is_Some (members sample_db !! m') ->
      borrow_book today' m' "JK-45" db' = (Raise OutOfStock, db').
Proof.
  apply (borrow_book_stock_check today0 "M001" "JK-45" sample_db angga harry_potter);
    vm_compute; solve [reflexivity | lia].
Defined.

(** ** The order of the checks of a borrowing *)


Lemma first_failure_unfold today m b db :
  first_failure today m b db =
  match members db !! m with
  | None => Some NotFound_member
  | Some mem =>
    match books db !! b with
    | None => Some NotFound_book
    | Some bk =>
      if Book.stock bk <=? Book.borrowed bk then Some OutOfStock
      else if (2 <=? length (member_borrowings m db))%nat
      then Some BorrowLimitExceeded
      else if penalized today mem then Some MemberPenalized
      else match first_borrowing m b db with
           | Some _ => Some DuplicateBorrowing
           | None => None
           end
    end
  end.
Proof.
  unfold first_failure, preconditions, holds. cbn [List.find].
  destruct (members db !! m) as [mem|] eqn:Hm; cbn; [|reflexivity].
  destruct (books db !! b) as [bk|] eqn:Hb; cbn; [|reflexivity].
  rewrite Z.ltb_antisym, Bool.negb_involutive.
  destruct (Book.stock bk <=? Book.borrowed bk); cbn; [reflexivity|].
  destruct (length (member_borrowings m db)) as [|[|[|n]]]; cbn; try reflexivity;
    (destruct (penalized today mem); cbn; [reflexivity|]);
    destruct (first_borrowing m b db); reflexivity.
Qed.



(** ** Rows of the borrowings table *)

Lemma find_app_last {A : Type} (p : A -> bool) (l : list A) (x : A) :
  List.find p l = None -> p x = true -> List.find p (l ++ [x]) = Some x.
Proof.
  intros Hnone Hx. induction l as [|y l IH]; cbn in *.
  - rewrite Hx. reflexivity.
  - destruct (p y); [discriminate|]. apply IH, Hnone.
Qed.

Lemma filter_fresh_id (i : string) (l : list Borrowing.t) :
  existsb (has_id i) l = false ->
  List.filter (fun b => negb (has_id i b)) l = l.
Proof.
  induction l as [|y l IH]; cbn; [reflexivity|].
  intros H. apply Bool.orb_false_iff in H as [Hy Hl].
  rewrite Hy. cbn. f_equal. apply IH, Hl.
Qed.

Lemma filter_app_last (i : string) (l : list Borrowing.t) (x : Borrowing.t) :
  existsb (has_id i) l = false ->
  Borrowing.id x = i ->
  List.filter (fun b => negb (has_id i b)) (l ++ [x]) = l.
Proof.
  intros Hl Hx. rewrite List.filter_app, filter_fresh_id by exact Hl.
  cbn. unfold has_id at 1. rewrite Hx, String.eqb_refl. cbn.
  apply app_nil_r.
Qed.

Lemma set_borrowed_roundtrip (bk : Book.t) :
  Book.set_borrowed (Book.borrowed bk + 1 - 1)
    (Book.set_borrowed (Book.borrowed bk + 1) bk) = bk.
Proof.
  destruct bk as [t a s bw i]. unfold Book.set_borrowed. cbn.
  f_equal. lia.
Qed.

(** ** A borrowing followed by its return *)

(** C8: when a borrowing succeeds, the return of the same pair on the same
    day succeeds; it finds the borrowing the borrow created, removes it,
    and brings the book's borrowed count, and with it the three tables,
    back to what they were before the borrow. *)
Theorem borrow_then_return today m b db r db' :
  borrow_book today m b db = (Return r, db') ->
  exists bk br,
    books db !! b = Some bk /\
    borrowings db' = borrowings db ++ [br] /\
    ~ In br (borrowings db) /\
    first_borrowing m b db' = Some br /\
    Book.borrowed <$> books db' !! b = Some (Book.borrowed bk + 1) /\
    exists db'',
      return_book today m b db' = (Return returned_response, db'') /\
      Book.borrowed <$> books db'' !! b = Some (Book.borrowed bk) /\
      borrowings db'' = borrowings db /\
      ~ In br (borrowings db'') /\
      db'' = db.
Proof.
  intros Hborrow.
  destruct (borrow_book_inv _ _ _ _ _ _ Hborrow)
    as (mem & bk & Hm & Hb & Hstock & Hheld & Hpen & Hdup & Hfresh & -> & ->).
  assert (Hdb' : borrowings (borrowed_db today m b bk db) =
                 borrowings db ++ [Borrowing.mk (next_borrowing_id db) m b today])
    by reflexivity.
  remember (Borrowing.mk (next_borrowing_id db) m b today) as br eqn:Hbr.
  assert (Hid : Borrowing.id br = next_borrowing_id db) by (subst br; reflexivity).
  assert (Hpair : of_member m br && of_book b br = true).
  { subst br. unfold of_member, of_book. cbn. rewrite !String.eqb_refl. reflexivity. }
  assert (Hat : Borrowing.borrowed_at br = today) by (subst br; reflexivity).
  clear Hbr.
  assert (Hnotin : ~ In br (borrowings db)).
  { intros Hin.
    assert (existsb (has_id (next_borrowing_id db)) (borrowings db) = true) as Hex.
    { apply existsb_exists. exists br. split; [exact Hin|].
      unfold has_id. rewrite Hid. apply String.eqb_refl. }
    congruence. }
  assert (Hfind : first_borrowing m b (borrowed_db today m b bk db) = Some br).
  { unfold first_borrowing. rewrite Hdb'.
    apply find_app_last; [exact Hdup|exact Hpair]. }
  assert (Hback : returned_db None m b mem
                    (Book.set_borrowed (Book.borrowed bk + 1) bk) br
                    (borrowed_db today m b bk db) = db).
  { unfold returned_db, delete_borrowing. rewrite Hdb', Hid.
    rewrite (filter_app_last _ _ br Hfresh Hid).
    unfold borrowed_db, update_book_row, set_books, set_borrowings; cbn.
    rewrite set_borrowed_roundtrip, insert_insert_eq, (insert_id _ _ _ Hb).
    destruct db; reflexivity. }
  exists bk, br. split; [exact Hb|]. split; [exact Hdb'|].
  split; [exact Hnotin|]. split; [exact Hfind|].
  split; [rewrite borrowed_db_book; reflexivity|].
  exists db. split.
  - rewrite return_book_unfold, borrowed_db_members, Hm, borrowed_db_book, Hfind.
    assert (Hd : (0 <? days_overdue today br) = false).
    { unfold days_overdue. rewrite Hat. apply Z.ltb_ge. lia. }
    rewrite Hd, Hback. reflexivity.
  - rewrite Hb. repeat split; auto.
Qed.

Lemma borrow_then_return_witness :
  exists bk br,
    books sample_db !! "JK-45" = Some bk /\
    borrowings (snd (borrow_book today0 "M001" "JK-45" sample_db))
      = borrowings sample_db ++ [br] /\
    ~ In br (borrowings sample_db) /\
    first_borrowing "M001" "JK-45" (snd (borrow_book today0 "M001" "JK-45" sample_db))
      = Some br /\
    Book.borrowed <$> books (snd (borrow_book today0 "M001" "JK-45" sample_db)) !! "JK-45"
      = Some (Book.borrowed bk + 1) /\
    exists db'',
      return_book today0 "M001" "JK-45" (snd (borrow_book today0 "M001" "JK-45" sample_db))
        = (Return returned_response, db'') /\
      Book.borrowed <$> books db'' !! "JK-45" = Some (Book.borrowed bk) /\
      borrowings db'' = borrowings sample_db /\
      ~ In br (borrowings db'') /\
      db'' = sample_db.
Proof.
  apply (borrow_then_return today0 "M001" "JK-45" sample_db
           (borrowed_response "B002")).
  vm_compute. reflexivity.
Defined.

(** ** Returns *)

Lemma return_book_inv today m b db r db' :
  return_book today m b db = (Return r, db') ->
  exists mem bk br,
    members db !! m = Some mem /\
    books db !! b = Some bk /\
    first_borrowing m b db = Some br /\
    r = returned_response /\
    ((days_overdue today br <= 0 /\ db' = returned_db None m b mem bk br db) \/
     (0 < days_overdue today br /\
      db' = returned_db (Some (today + days_overdue today br * 3)) m b mem bk br db)).
Proof.
  rewrite return_book_unfold.
  destruct (members db !! m) as [mem|]; [|discriminate].
  destruct (books db !! b) as [bk|]; [|discriminate].
  destruct (first_borrowing m b db) as [br|]; [|discriminate].
  destruct (Z.ltb_spec 0 (days_overdue today br)) as [Hlt|Hge].
  - destruct (date_add_ok _ _); [|discriminate].
    intros [= <- <-]. exists mem, bk, br. repeat split; auto.
  - intros [= <- <-]. exists mem, bk, br. repeat split; auto.
Qed.

Lemma returned_db_members_none m b mem bk br db :
  members (returned_db None m b mem bk br db) = members db.
Proof. reflexivity. Qed.

Lemma returned_db_members_some d m b mem bk br db :
  members (returned_db (Some d) m b mem bk br db) =
    <[m := Member.set_penalty_end_date (Some d) mem]> (members db).
Proof. reflexivity. Qed.

Lemma returned_db_books p m b mem bk br db :
  books (returned_db p m b mem bk br db) =
    <[b := Book.set_borrowed (Book.borrowed bk - 1) bk]> (books db).
Proof. destruct p; reflexivity. Qed.

(** C5: after a successful return of a borrowing created d days before
    today, the members are as before when d <= 7, and when d > 7 the
    member's penalty_end_date is today + 3 * (d - 7) whatever it was
    before, the name being kept: today + 3 for d = 8 and today + 24 for
    d = 15. *)
Theorem return_book_penalty today m b db r db' mem br :
  return_book today m b db = (Return r, db') ->
  members db !! m = Some mem ->
  first_borrowing m b db = Some br ->
  let d := today - Borrowing.borrowed_at br in
  (d <= 7 -> members db' = members db) /\
  (7 < d ->
   members db' !! m = Some (Member.mk (Member.name mem) (Some (today + 3 * (d - 7)))) /\
   forall m', m' <> m -> members db' !! m' = members db !! m') /\
  (d = 8 -> Member.penalty_end_date <$> members db' !! m = Some (Some (today + 3))) /\
  (d = 15 -> Member.penalty_end_date <$> members db' !! m = Some (Some (today + 24))).
Proof.
  intros Hret Hm Hbr d.
  destruct (return_book_inv _ _ _ _ _ _ Hret)
    as (mem' & bk & br' & Hm' & Hb & Hbr' & -> & Hcases).
  rewrite Hm in Hm'. injection Hm' as <-.
  rewrite Hbr in Hbr'. injection Hbr' as <-.
  assert (Hlate : 7 < d ->
    members db' !! m = Some (Member.mk (Member.name mem) (Some (today + 3 * (d - 7)))) /\
    forall m', m' <> m -> members db' !! m' = members db !! m').
  { intros Hd. destruct Hcases as [[Hle _]|[_ ->]].
    - unfold days_overdue in Hle. subst d. lia.
    - rewrite returned_db_members_some. split.
      + rewrite lookup_insert_eq. unfold Member.set_penalty_end_date, days_overdue.
        do 3 f_equal. subst d. lia.
      + intros m' Hne. apply lookup_insert_ne. congruence. }
  split; [|split; [exact Hlate|split]].
  - intros Hd. destruct Hcases as [[_ ->]|[Hlt _]].
    + apply returned_db_members_none.
    + unfold days_overdue in Hlt. subst d. lia.
  - intros Hd. destruct Hlate as [-> _]; [lia|]. cbn. do 3 f_equal. lia.
  - intros Hd. destruct Hlate as [-> _]; [lia|]. cbn. do 3 f_equal. lia.
Qed.

Lemma return_book_penalty_witness :
  members (snd (return_book today0 "M003" "TW-11" (lent_db 15))) !! "M003"
    = Some (Member.mk "Putri" (Some (today0 + 3 * (15 - 7)))).
Proof.
  destruct (return_book_penalty today0 "M003" "TW-11" (lent_db 15)
              returned_response (snd (return_book today0 "M003" "TW-11" (lent_db 15)))
              putri (Borrowing.mk "B001" "M003" "TW-11" (today0 - 15)))
    as (_ & H & _).
  - vm_compute. reflexivity.
  - vm_compute. reflexivity.
  - vm_compute. reflexivity.
  - destruct H as [H _]; [vm_compute; reflexivity|].
    rewrite H. vm_compute. reflexivity.
Defined.

(** C9: a successful return that is not overdue leaves every member, and
    so every penalty_end_date, as it was, and changes of the books only
    the returned one, whose borrowed count drops by one while its title,
    author, stock and image stay. *)
Theorem return_book_on_time_frame today m b db r db' br :
  return_book today m b db = (Return r, db') ->
  first_borrowing m b db = Some br ->
  days_overdue today br <= 0 ->
  members db' = members db /\
  (exists bk bk',
     books db !! b = Some bk /\ books db' !! b = Some bk' /\
     Book.borrowed bk' = Book.borrowed bk - 1 /\
     Book.title bk' = Book.title bk /\
     Book.author bk' = Book.author bk /\
     Book.stock bk' = Book.stock bk /\
     Book.image bk' = Book.image bk) /\
  (forall c, c <> b -> books db' !! c = books db !! c).
Proof.
  intros Hret Hbr Hdue.
  destruct (return_book_inv _ _ _ _ _ _ Hret)
    as (mem & bk & br' & Hm & Hb & Hbr' & -> & Hcases).
  rewrite Hbr in Hbr'. injection Hbr' as <-.
  destruct Hcases as [[_ ->]|[Hlt _]]; [|lia].
  split; [apply returned_db_members_none|].
  rewrite returned_db_books. split.
  - exists bk, (Book.set_borrowed (Book.borrowed bk - 1) bk).
    rewrite lookup_insert_eq. repeat split; auto.
  - intros c Hne. apply lookup_insert_ne. congruence.
Qed.

Lemma return_book_on_time_frame_witness :
  members (snd (return_book today0 "M003" "TW-11" (lent_db 7))) = members (lent_db 7) /\
  (exists bk bk',
     books (lent_db 7) !! "TW-11" = Some bk /\
     books (snd (return_book today0 "M003" "TW-11" (lent_db 7))) !! "TW-11" = Some bk' /\
     Book.borrowed bk' = Book.borrowed bk - 1 /\
     Book.title bk' = Book.title bk /\
     Book.author bk' = Book.author bk /\
     Book.stock bk' = Book.stock bk /\
     Book.image bk' = Book.image bk) /\
  (forall c, c <> "TW-11" ->
     books (snd (return_book today0 "M003" "TW-11" (lent_db 7))) !! c
       = books (lent_db 7) !! c).
Proof.
  apply (return_book_on_time_frame today0 "M003" "TW-11" (lent_db 7)
           returned_response _ (Borrowing.mk "B001" "M003" "TW-11" (today0 - 7))).
  - vm_compute. reflexivity.
  - vm_compute. reflexivity.
  - vm_compute. discriminate.
Defined.

(** ** The other handlers, case by case *)

Lemma create_book_unfold c t a s l db :
  create_book c t a s l db =
  match books db !! c with
  | Some _ => (Raise IntegrityError, db)
  | None =>
    match l with
    | LookupRaises => (Raise ClientError, created_db c t a s db)
    | LookupJson data =>
      match numFound data with
      | None => (Raise KeyError, created_db c t a s db)
      | Some n =>
        if 0 <? n then
          match docs data with
          | None => (Raise KeyError, created_db c t a s db)
          | Some ds =>
            match first_cover ds with
            | Some cv =>
                (Return (created_response (cover_image_url cv)),
                 update_book_row c (Book.mk t a s 0 (cover_image_url cv))
                   (created_db c t a s db))
            | None => (Return (created_response EmptyString), created_db c t a s db)
            end
          end
        else (Return (created_response EmptyString), created_db c t a s db)
      end
    end
  end.
Proof.
  unfold create_book, mbind, handler_bind, commit, insert_book, fetch, getitem,
    raise, created_db, mret, handler_ret.
  destruct (books db !! c); [reflexivity|].
  destruct l as [|data]; [reflexivity|].
  destruct (numFound data) as [n|]; [|reflexivity]. rewrite Z.gtb_ltb.
  destruct (0 <? n); [|reflexivity].
  destruct (docs data) as [ds|]; [|reflexivity].
  destruct (first_cover ds); reflexivity.
Qed.

Lemma update_book_unfold c t a s db :
  update_book c t a s db =
  match books db !! c with
  | None => (Raise NotFound_book, db)
  | Some bk =>
      (Return (message_response 200 "Book updated"),
       update_book_row c (Book.mk t a s (Book.borrowed bk) (Book.image bk)) db)
  end.
Proof.
  unfold update_book, mbind, handler_bind, query, first_by_code.
  destruct (books db !! c); reflexivity.
Qed.

Lemma delete_book_unfold fk c db :
  delete_book fk c db =
  match books db !! c with
  | None => (Raise NotFound_book, db)
  | Some _ =>
      if fk && existsb (of_book c) (borrowings db)
      then (Raise IntegrityError, db)
      else (Return (message_response 200 "Book deleted"),
            set_books (delete c (books db)) db)
  end.
Proof.
  unfold delete_book, mbind, handler_bind, query, first_by_code, commit,
    delete_book_row.
  destruct (books db !! c); [|reflexivity]. cbn [Loaded.code fst].
  destruct (fk && existsb (of_book c) (borrowings db)); reflexivity.
Qed.

Lemma create_member_books n db : books (snd (create_member n db)) = books db.
Proof.
  unfold create_member, mbind, handler_bind, query, commit, insert_member.
  destruct (members db !! _); reflexivity.
Qed.

(** ** The stock invariant across requests *)

Lemma borrow_book_raise_db today m b db e db' :
  borrow_book today m b db = (Raise e, db') -> db' = db.
Proof.
  rewrite borrow_book_unfold.
  repeat match goal with
         | |- context [match ?x with _ => _ end] => destruct x
         end; congruence.
Qed.

Lemma return_book_raise_db today m b db e db' :
  return_book today m b db = (Raise e, db') -> db' = db.
Proof.
  rewrite return_book_unfold.
  repeat match goal with
         | |- context [match ?x with _ => _ end] => destruct x
         end; congruence.
Qed.

(** C3 (as amended): every request keeps 0 <= borrowed <= stock for every
    stored book, provided a created book is given a stock that is not
    negative, an updated book a stock not below its borrowed count, and a
    returned book has borrowed >= 1; delete and borrow keep it as they
    are. *)
Theorem route_preserves_stock_invariant fk today r db :
  stock_invariant db ->
  admissible db r ->
  stock_invariant (snd (route fk today r db)).
Proof.
  unfold stock_invariant. intros Hinv Hadm.
  destruct r as [c t a s l|c t a s|c|n|m b|m b]; cbn [route admissible] in *.
  - assert (Hnew : forall i, book_invariant (Book.mk t a s 0 i))
      by (intros i; unfold book_invariant; cbn; lia).
    rewrite create_book_unfold.
    repeat match goal with
           | |- context [match ?x with _ => _ end] => destruct x
           end; cbn; auto;
      repeat (apply map_Forall_insert_2; [apply Hnew|]); exact Hinv.
  - rewrite update_book_unfold.
    destruct (books db !! c) as [bk|] eqn:Hb; cbn; [|exact Hinv].
    apply map_Forall_insert_2; [|exact Hinv].
    pose proof (Hinv c bk Hb) as [Hlo _]. specialize (Hadm bk eq_refl).
    unfold book_invariant. cbn. lia.
  - rewrite delete_book_unfold.
    destruct (books db !! c); cbn; [|exact Hinv].
    destruct (fk && _); cbn; [exact Hinv|].
    apply map_Forall_delete, Hinv.
  - rewrite create_member_books. exact Hinv.
  - destruct (borrow_book today m b db) as [[resp|e] db'] eqn:Hres; cbn.
    + destruct (borrow_book_inv _ _ _ _ _ _ Hres)
        as (mem & bk & _ & Hb & Hstock & _ & _ & _ & _ & _ & ->).
      unfold borrowed_db, update_book_row; cbn.
      apply map_Forall_insert_2; [|exact Hinv].
      pose proof (Hinv b bk Hb) as [Hlo _].
      unfold book_invariant. cbn. lia.
    + rewrite (borrow_book_raise_db _ _ _ _ _ _ Hres). exact Hinv.
  - destruct (return_book today m b db) as [[resp|e] db'] eqn:Hres; cbn.
    + destruct (return_book_inv _ _ _ _ _ _ Hres)
        as (mem & bk & br & _ & Hb & _ & _ & Hcases).
      assert (Hbooks : books db' =
                <[b := Book.set_borrowed (Book.borrowed bk - 1) bk]> (books db)).
      { destruct Hcases as [[_ ->]|[_ ->]]; apply returned_db_books. }
      rewrite Hbooks. apply map_Forall_insert_2; [|exact Hinv].
      pose proof (Hinv b bk Hb) as [_ Hhi]. specialize (Hadm bk Hb).
      unfold book_invariant. cbn. lia.
    + rewrite (return_book_raise_db _ _ _ _ _ _ Hres). exact Hinv.
Qed.

Lemma route_preserves_stock_invariant_witness :
  stock_invariant (snd (route true today0 (ReturnBook "M003" "TW-11") (lent_db 9))).
Proof.
  apply (route_preserves_stock_invariant true today0
           (ReturnBook "M003" "TW-11") (lent_db 9)).
  - compute_done.
  - intros bk H. vm_compute in H. injection H as <-. vm_compute. discriminate.
Defined.

(** C3, as stated, fails: a book is created with a negative stock, and
    the stock of a book is updated to less than its borrowed count. *)
Lemma stock_invariant_broken :
  (stock_invariant empty_db /\
   ~ stock_invariant
       (snd (route false today0
               (CreateBook "NH-1" "A Study in Scarlet" "Arthur Conan Doyle" (-1)
                  (LookupJson (mkSearch (Some 0) (Some []))))
               empty_db))) /\
  (stock_invariant sample_db /\
   ~ stock_invariant
       (snd (route false today0
               (UpdateBook "TW-11" "Twilight" "Stephenie Meyer" 0) sample_db))).
Proof.
  split; split; compute_done.
Qed.

(** ** Creating a book when the cover lookup fails *)




(** ** Deleting a book that is lent *)

(** C10 (as amended): deleting an existing book never deletes or changes a
    borrowing or a member. The book is deleted and the request answered
    200 when no borrowing refers to it or the store does not enforce the
    foreign key of borrowings.book_code; when the store enforces it and a
    borrowing refers to the book, the commit is refused, the request is
    answered with the generic 500 and the book stays. *)
Theorem delete_book_frame fk c db bk :
  books db !! c = Some bk ->
  borrowings (snd (delete_book fk c db)) = borrowings db /\
  members (snd (delete_book fk c db)) = members db /\
  (fk = false \/ existsb (of_book c) (borrowings db) = false ->
   fst (delete_book fk c db) = Return (message_response 200 "Book deleted") /\
   books (snd (delete_book fk c db)) !! c = None /\
   forall c', c' <> c -> books (snd (delete_book fk c db)) !! c' = books db !! c') /\
  (fk = true -> existsb (of_book c) (borrowings db) = true ->
   app (delete_book fk c) db = (InternalError, db)).
Proof.
  intros Hb. unfold app. rewrite delete_book_unfold, Hb.
  destruct fk; destruct (existsb (of_book c) (borrowings db)); cbn;
    (split; [reflexivity|]); (split; [reflexivity|]); split;
    try (intros [?|?]; discriminate); try discriminate; try reflexivity;
    intros _; (split; [reflexivity|]);
    (split; [apply lookup_delete_eq|]);
    intros c' Hne; apply lookup_delete_ne; congruence.
Qed.

Lemma delete_book_frame_witness :
  fst (delete_book false "TW-11" sample_db)
    = Return (message_response 200 "Book deleted") /\
  books (snd (delete_book false "TW-11" sample_db)) !! "TW-11" = None /\
  forall c', c' <> "TW-11" ->
    books (snd (delete_book false "TW-11" sample_db)) !! c' = books sample_db !! c'.
Proof.
  destruct (delete_book_frame false "TW-11" sample_db twilight) as (_ & _ & H & _).
  - vm_compute. reflexivity.
  - apply H. left. reflexivity.
Defined.

(** C10, as stated, fails on a store that enforces the declared foreign
    key: the delete of a lent book is answered 500 and the book stays. *)
Lemma delete_lent_book_refused :
  books sample_db !! "TW-11" = Some twilight /\
  existsb (of_book "TW-11") (borrowings sample_db) = true /\
  app (delete_book true "TW-11") sample_db = (InternalError, sample_db).
Proof. repeat split; vm_compute; reflexivity. Qed.

(** ** Returns of a member or a book that does not exist *)

Lemma return_book_not_borrowed today m b db mem bk :
  members db !! m = Some mem ->
  books db !! b = Some bk ->
  first_borrowing m b db = None ->
  return_book today m b db = (Raise NotBorrowed, db).
Proof.
  intros Hm Hb Hbr. rewrite return_book_unfold, Hm, Hb, Hbr. reflexivity.
Qed.

(** C2 (what the code does where the claim fails): when the member or the
    book of a return does not exist, the handler raises AttributeError
    while it builds the query for the borrowing, before either of its
    not-found checks, and the request is answered with the generic 500,
    not with a 404; the tables are left as they were. *)
Theorem return_book_missing_row today m b db :
  members db !! m = None \/ books db !! b = None ->
  return_book today m b db = (Raise AttributeError, db) /\
  app (return_book today m b) db = (InternalError, db) /\
  fst (app (return_book today m b) db) <> respond (Raise NotFound_member) /\
  fst (app (return_book today m b) db) <> respond (Raise NotFound_book).
Proof.
  intros Hmiss.
  assert (Hres : return_book today m b db = (Raise AttributeError, db)).
  { rewrite return_book_unfold. destruct Hmiss as [-> | Hb]; [reflexivity|].
    destruct (members db !! m); [|reflexivity]. rewrite Hb. reflexivity. }
  unfold app. rewrite Hres. cbn. repeat split; discriminate.
Qed.

Lemma return_book_missing_row_witness :
  return_book today0 "M009" "JK-45" sample_db = (Raise AttributeError, sample_db) /\
  app (return_book today0 "M009" "JK-45") sample_db = (InternalError, sample_db) /\
  fst (app (return_book today0 "M009" "JK-45") sample_db)
    <> respond (Raise NotFound_member) /\
  fst (app (return_book today0 "M009" "JK-45") sample_db)
    <> respond (Raise NotFound_book).
Proof.
  apply (return_book_missing_row today0 "M009" "JK-45" sample_db).
  left. vm_compute. reflexivity.
Defined.

(** ** Generated codes are read back *)

Lemma parse_nat_zero (s : string) :
  parse_nat (String (Ascii.Ascii false false false false true true false false) s) = parse_nat s.
Proof.
  unfold parse_nat. cbn [NilEmpty.uint_of_string].
  destruct (NilEmpty.uint_of_string s) as [d|]; reflexivity.
Qed.

Lemma parse_nat_pad03 (s : string) : parse_nat (pad03 s) = parse_nat s.
Proof.
  unfold pad03.
  destruct (String.length s) as [|[|[|k]]]; unfold String.append; cbn;
    rewrite ?parse_nat_zero; reflexivity.
Qed.

Lemma parse_nat_format03 (k : nat) : parse_nat (format03 k) = Some k.
Proof.
  unfold format03. rewrite parse_nat_pad03.
  unfold parse_nat, NilZero.string_of_uint.
  pose proof (DecimalNat.Unsigned.of_to k) as Hof.
  destruct (Nat.to_uint k) eqn:Hk;
    [cbn in Hof; subst k; discriminate Hk| ..];
    rewrite NilEmpty.usu, Hof; reflexivity.
Qed.

Lemma format03_inj (k n : nat) : format03 k = format03 n -> k = n.
Proof.
  intros Heq. pose proof (parse_nat_format03 k) as Hk.
  rewrite Heq, parse_nat_format03 in Hk. congruence.
Qed.

(** X1: the three-digit code of a count reads back as an integer to that
    count, so that different counts give different codes; a code has at
    least three characters. *)
Theorem format03_roundtrip (n : nat) :
  parse_nat (format03 n) = Some n /\
  (3 <= String.length (format03 n))%nat /\
  (forall k, format03 k = format03 n -> k = n).
Proof.
  split; [apply parse_nat_format03|]. split.
  - unfold format03, pad03.
    destruct (String.length (NilZero.string_of_uint (Nat.to_uint n)))
      as [|[|[|k]]] eqn:Hlen; unfold String.append; cbn; rewrite ?Hlen; lia.
  - intros k. apply format03_inj.
Qed.

(** ** Every request commits one step *)

Lemma create_member_unfold n db :
  create_member n db =
  match members db !! member_code_of (size (members db) + 1) with
  | Some _ => (Raise IntegrityError, db)
  | None =>
      (Return (member_created_response (member_code_of (size (members db) + 1))),
       set_members (<[member_code_of (size (members db) + 1) := Member.mk n None]>
                      (members db)) db)
  end.
Proof.
  unfold create_member, mbind, handler_bind, query, commit, insert_member,
    member_code_of.
  destruct (members db !! _); reflexivity.
Qed.

Lemma route_step fk today r db : step fk today db (snd (route fk today r db)).
Proof.
  destruct r as [c t a s l|c t a s|c|n|m b|m b]; cbn [route].
  - rewrite create_book_unfold.
    destruct (books db !! c) eqn:Hc; [apply step_none|].
    assert (Hfirst : forall i, step fk today db
              (set_books (<[c := Book.mk t a s 0 i]> (books db)) db))
      by (intros i; apply step_create_book, Hc).
    destruct l as [|data]; [apply Hfirst|].
    destruct (numFound data) as [k|]; [|apply Hfirst].
    destruct (0 <? k); [|apply Hfirst].
    destruct (docs data) as [ds|]; [|apply Hfirst].
    destruct (first_cover ds) as [cv|]; [|apply Hfirst].
    cbn [snd]. unfold update_book_row, created_db, set_books. cbn.
    rewrite insert_insert_eq. apply (Hfirst (cover_image_url cv)).
  - rewrite update_book_unfold.
    destruct (books db !! c) as [bk|] eqn:Hc; [|apply step_none].
    apply step_update_book, Hc.
  - rewrite delete_book_unfold.
    destruct (books db !! c) as [bk|] eqn:Hc; [|apply step_none].
    destruct (fk && existsb (of_book c) (borrowings db)) eqn:Hfk; [apply step_none|].
    apply (step_delete_book fk today db c bk Hc Hfk).
  - rewrite create_member_unfold.
    destruct (members db !! _) eqn:Hc; [apply step_none|].
    apply step_create_member, Hc.
  - destruct (borrow_book today m b db) as [[resp|e] db'] eqn:Hres; cbn [snd].
    + destruct (borrow_book_inv _ _ _ _ _ _ Hres)
        as (mem & bk & Hm & Hb & Hstock & Hheld & Hpen & Hdup & Hfresh & _ & ->).
      apply (step_borrow fk today db m b mem bk); assumption.
    + rewrite (borrow_book_raise_db _ _ _ _ _ _ Hres). apply step_none.
  - destruct (return_book today m b db) as [[resp|e] db'] eqn:Hres; cbn [snd].
    + destruct (return_book_inv _ _ _ _ _ _ Hres)
        as (mem & bk & br & Hm & Hb & Hbr & _ & [[Hle ->]|[Hlt ->]]).
      * apply (step_return fk today db m b mem bk br None); auto.
      * apply (step_return fk today db m b mem bk br
                 (Some (today + days_overdue today br * 3))); auto.
    + rewrite (return_book_raise_db _ _ _ _ _ _ Hres). apply step_none.
Qed.

Lemma run_preserves fk (P : DB -> Prop) :
  (forall today db db', step fk today db db' -> P db -> P db') ->
  forall rs db, P db -> P (run fk rs db).
Proof.
  intros Hstep rs. unfold run.
  induction rs as [|[today r] rs IH]; intros db HP; cbn [fold_left fst snd].
  - exact HP.
  - apply IH. apply (Hstep today db); [apply route_step|exact HP].
Qed.

(** What a step does to the borrowings. *)
Lemma step_borrowings fk today db db' :
  step fk today db db' ->
  borrowings db' = borrowings db \/
  (exists x, borrowings db' = borrowings db ++ [x] /\
             existsb (has_id (Borrowing.id x)) (borrowings db) = false /\
             (length (member_borrowings (Borrowing.member_code x) db) < 2)%nat /\
             first_borrowing (Borrowing.member_code x) (Borrowing.book_code x) db = None) \/
  (exists i, borrowings db' = List.filter (fun x => negb (has_id i x)) (borrowings db)).
Proof.
  intros Hstep. destruct Hstep; try (left; reflexivity).
  - right. left. eexists. split; [reflexivity|]. cbn. auto.
  - right. right. exists (Borrowing.id br). destruct p; reflexivity.
Qed.

(** ** Counting rows *)

Lemma filter_last {A : Type} (p : A -> bool) (l : list A) (x : A) :
  List.filter p (l ++ [x]) = List.filter p l ++ (if p x then [x] else []).
Proof. rewrite List.filter_app. reflexivity. Qed.

Lemma filter_length_le {A : Type} (p q : A -> bool) (l : list A) :
  (length (List.filter p (List.filter q l)) <= length (List.filter p l))%nat.
Proof.
  induction l as [|y l IH]; cbn; [lia|].
  destruct (q y); cbn; destruct (p y); cbn; lia.
Qed.

Lemma find_none_filter {A : Type} (p : A -> bool) (l : list A) :
  List.find p l = None -> List.filter p l = [].
Proof.
  induction l as [|y l IH]; cbn; [reflexivity|].
  destruct (p y); [discriminate|]. exact IH.
Qed.

Lemma filter_cons_elem {A : Type} (p : A -> bool) (l : list A) (x : A) (k : list A) :
  List.filter p l = x :: k -> In x l /\ p x = true.
Proof.
  intros H. apply List.filter_In. rewrite H. left. reflexivity.
Qed.

Lemma filter_keeps_ids_distinct (p : Borrowing.t -> bool) (l : list Borrowing.t) :
  NoDup (map Borrowing.id l) -> NoDup (map Borrowing.id (List.filter p l)).
Proof.
  induction l as [|y l IH]; cbn; [auto|].
  intros Hnd. apply NoDup_cons in Hnd as [Hy Hl].
  destruct (p y); cbn; [|auto].
  apply NoDup_cons. split; [|auto].
  intros Hin. apply Hy.
  apply list_elem_of_In, List.in_map_iff in Hin as (z & Hz & Hzin).
  apply List.filter_In in Hzin as [Hzin _].
  apply list_elem_of_In, List.in_map_iff. exists z. auto.
Qed.

Lemma fresh_id_not_in (i : string) (l : list Borrowing.t) :
  existsb (has_id i) l = false -> ~ In i (map Borrowing.id l).
Proof.
  intros Hfresh Hin. apply List.in_map_iff in Hin as (x & Hx & Hxin).
  assert (existsb (has_id i) l = true) as Hex.
  { apply existsb_exists. exists x. split; [exact Hxin|].
    unfold has_id. rewrite Hx. apply String.eqb_refl. }
  congruence.
Qed.

Lemma borrow_limit_all db :
  borrow_limit db <-> forall m, (length (member_borrowings m db) <= 2)%nat.
Proof.
  unfold borrow_limit. rewrite Forall_forall. split.
  - intros H m. destruct (member_borrowings m db) as [|x k] eqn:E; [cbn; lia|].
    apply filter_cons_elem in E as Hx. destruct Hx as [Hin Hm].
    apply String.eqb_eq in Hm. apply list_elem_of_In in Hin.
    specialize (H x Hin). rewrite Hm, E in H. exact H.
  - intros H x _. apply H.
Qed.

Lemma no_duplicate_pairs_all db :
  no_duplicate_pairs db <->
  forall m b, (length (List.filter (same_pair m b) (borrowings db)) <= 1)%nat.
Proof.
  unfold no_duplicate_pairs. rewrite Forall_forall. split.
  - intros H m b.
    destruct (List.filter (same_pair m b) (borrowings db)) as [|x k] eqn:E; [cbn; lia|].
    apply filter_cons_elem in E as Hx. destruct Hx as [Hin Hmb].
    apply andb_prop in Hmb as [Hm Hb].
    apply String.eqb_eq in Hm. apply String.eqb_eq in Hb.
    apply list_elem_of_In in Hin.
    specialize (H x Hin). rewrite Hm, Hb, E in H. exact H.
  - intros H x _. apply H.
Qed.

(** ** Invariants of the borrowings across requests *)

Lemma step_unique_ids fk today db db' :
  step fk today db db' -> unique_ids db -> unique_ids db'.
Proof.
  unfold unique_ids. intros Hstep Hnd.
  destruct (step_borrowings _ _ _ _ Hstep)
    as [-> | [(x & -> & Hfresh & _) | (i & ->)]].
  - exact Hnd.
  - rewrite map_app. cbn. apply NoDup_app. split; [exact Hnd|]. split.
    + intros i Hi Hx. apply list_elem_of_In in Hi.
      apply list_elem_of_In in Hx. destruct Hx as [<-|[]].
      exact (fresh_id_not_in _ _ Hfresh Hi).
    + apply NoDup_singleton.
  - apply filter_keeps_ids_distinct, Hnd.
Qed.

Lemma step_borrow_limit fk today db db' :
  step fk today db db' -> borrow_limit db -> borrow_limit db'.
Proof.
  rewrite !borrow_limit_all. unfold member_borrowings. intros Hstep Hlim m.
  destruct (step_borrowings _ _ _ _ Hstep)
    as [-> | [(x & -> & _ & Hheld & _) | (i & ->)]].
  - apply Hlim.
  - rewrite filter_last, length_app.
    unfold of_member at 2.
    destruct (String.eqb_spec (Borrowing.member_code x) m) as [<-|_]; cbn.
    + unfold member_borrowings in Hheld. lia.
    + specialize (Hlim m). lia.
  - etransitivity; [apply filter_length_le|apply Hlim].
Qed.

Lemma step_no_duplicate_pairs fk today db db' :
  step fk today db db' -> no_duplicate_pairs db -> no_duplicate_pairs db'.
Proof.
  rewrite !no_duplicate_pairs_all. intros Hstep Hnd m b.
  destruct (step_borrowings _ _ _ _ Hstep)
    as [-> | [(x & -> & _ & _ & Hdup) | (i & ->)]].
  - apply Hnd.
  - rewrite filter_last, length_app.
    destruct (same_pair m b x) eqn:Hx; cbn; [|specialize (Hnd m b); lia].
    apply andb_prop in Hx as [Hm Hb].
    apply String.eqb_eq in Hm. apply String.eqb_eq in Hb. subst m b.
    unfold first_borrowing in Hdup. apply find_none_filter in Hdup.
    unfold same_pair. rewrite Hdup. cbn. lia.
  - etransitivity; [apply filter_length_le|apply Hnd].
Qed.

(** X2: the borrowing ids stay pairwise distinct through any sequence of
    requests. *)
Theorem run_unique_ids fk rs db :
  unique_ids db -> unique_ids (run fk rs db).
Proof.
  apply run_preserves. intros today d d'. apply step_unique_ids.
Qed.

Lemma run_unique_ids_witness : unique_ids (run false sample_requests empty_db).
Proof. apply (run_unique_ids false sample_requests empty_db). compute_done. Defined.

(** X3: through any sequence of requests no member comes to hold more
    than two borrowings. *)
Theorem run_borrow_limit fk rs db :
  borrow_limit db ->
  forall m, (length (member_borrowings m (run fk rs db)) <= 2)%nat.
Proof.
  intros H. apply borrow_limit_all. revert H.
  apply run_preserves. intros today d d'. apply step_borrow_limit.
Qed.

Lemma run_borrow_limit_witness :
  (length (member_borrowings "M001" (run false sample_requests empty_db)) <= 2)%nat.
Proof.
  apply (run_borrow_limit false sample_requests empty_db). compute_done.
Defined.

(** X4: through any sequence of requests no member comes to hold two
    borrowings of the same book. *)
Theorem run_no_duplicate_pairs fk rs db :
  no_duplicate_pairs db ->
  forall m b,
    (length (List.filter (same_pair m b) (borrowings (run fk rs db))) <= 1)%nat.
Proof.
  intros H. apply no_duplicate_pairs_all. revert H.
  apply run_preserves. intros today d d'. apply step_no_duplicate_pairs.
Qed.

Lemma run_no_duplicate_pairs_witness :
  (length (List.filter (same_pair "M001" "TW-11")
             (borrowings (run false sample_requests empty_db))) <= 1)%nat.
Proof.
  apply (run_no_duplicate_pairs false sample_requests empty_db). compute_done.
Defined.

(** ** Borrowed counts on a store that enforces the foreign keys *)

Lemma referential_all db :
  referential db <->
  forall x, In x (borrowings db) ->
    is_Some (members db !! Borrowing.member_code x) /\
    is_Some (books db !! Borrowing.book_code x).
Proof.
  unfold referential. rewrite Forall_forall. split.
  - intros H x Hx. apply H, list_elem_of_In, Hx.
  - intros H x Hx. apply H, list_elem_of_In, Hx.
Qed.

(** Deleting the row of a borrowing takes one row out of every count the
    borrowing belongs to. *)
Lemma filter_delete_id (p : Borrowing.t -> bool) (l : list Borrowing.t)
  (br : Borrowing.t) :
  NoDup (map Borrowing.id l) ->
  In br l ->
  length (List.filter p l) =
    (length (List.filter p
               (List.filter (fun x => negb (has_id (Borrowing.id br) x)) l))
     + (if p br then 1 else 0))%nat.
Proof.
  induction l as [|y l IH]; cbn; [intros _ []|].
  intros Hnd Hin. apply NoDup_cons in Hnd as [Hy Hl].
  destruct Hin as [->|Hin].
  - unfold has_id at 1. rewrite String.eqb_refl. cbn.
    rewrite filter_fresh_id.
    + destruct (p br); cbn; lia.
    + destruct (existsb (has_id (Borrowing.id br)) l) eqn:Hex; [|reflexivity].
      exfalso. apply Hy. apply existsb_exists in Hex as (z & Hz & Hid).
      apply String.eqb_eq in Hid. apply list_elem_of_In, List.in_map_iff.
      exists z. auto.
  - assert (Hne : has_id (Borrowing.id br) y = false).
    { unfold has_id. apply String.eqb_neq. intros Heq. apply Hy.
      apply list_elem_of_In, List.in_map_iff. exists br. auto. }
    rewrite Hne. cbn. specialize (IH Hl Hin).
    destruct (p y); cbn; lia.
Qed.

Lemma no_borrowing_of_missing_book c db :
  referential db -> books db !! c = None -> book_borrowings c db = [].
Proof.
  intros Href Hc. unfold book_borrowings.
  destruct (List.filter (of_book c) (borrowings db)) as [|x k] eqn:E; [reflexivity|].
  apply filter_cons_elem in E as [Hin Hx]. apply String.eqb_eq in Hx.
  destruct (proj1 (referential_all db) Href x Hin) as [_ [bk Hbk]].
  congruence.
Qed.

Lemma existsb_false_filter {A : Type} (p : A -> bool) (l : list A) :
  existsb p l = false -> List.filter p l = [].
Proof.
  induction l as [|y l IH]; cbn; [reflexivity|].
  intros H. apply Bool.orb_false_iff in H as [-> Hl]. auto.
Qed.

Lemma step_consistent today db db' :
  step true today db db' -> consistent db -> consistent db'.
Proof.
  intros Hstep (Hu & Href & Hcnt).
  split; [exact (step_unique_ids _ _ _ _ Hstep Hu)|].
  pose proof (proj1 (referential_all db) Href) as Hr.
  unfold borrowed_counts, book_borrowings in *.
  rewrite referential_all.
  destruct Hstep as [|c t a s i Hc|c t a s bk Hc|c bk Hc Hfk|n Hc
                     |m b mem bk Hm Hb Hstock Hheld Hpen Hdup Hfresh
                     |m b mem bk br p Hm Hb Hbr Hp].
  - auto.
  - cbn. split.
    + intros x Hx. destruct (Hr x Hx) as [H1 H2]. split; [exact H1|].
      apply lookup_insert_is_Some'. auto.
    + apply map_Forall_insert_2; [|exact Hcnt]. cbn.
      pose proof (no_borrowing_of_missing_book c db Href Hc) as Hnone.
      unfold book_borrowings in Hnone. rewrite Hnone. reflexivity.
  - cbn. split.
    + intros x Hx. destruct (Hr x Hx) as [H1 H2]. split; [exact H1|].
      apply lookup_insert_is_Some'. auto.
    + apply map_Forall_insert_2; [|exact Hcnt]. cbn. exact (Hcnt c bk Hc).
  - cbn in Hfk. apply existsb_false_filter in Hfk as Hnone. cbn. split.
    + intros x Hx. destruct (Hr x Hx) as [H1 H2]. split; [exact H1|].
      apply lookup_delete_is_Some. split; [|exact H2].
      intros Heq.
      assert (In x (List.filter (of_book c) (borrowings db)))
        as Hin by (apply List.filter_In; split;
                   [exact Hx|unfold of_book; rewrite Heq; apply String.eqb_refl]).
      rewrite Hnone in Hin. destruct Hin.
    + apply map_Forall_delete, Hcnt.
  - cbn. split; [|exact Hcnt].
    intros x Hx. destruct (Hr x Hx) as [H1 H2]. split; [|exact H2].
    apply lookup_insert_is_Some'. auto.
  - cbn. split.
    + intros x Hx. apply List.in_app_iff in Hx as [Hx|[<-|[]]].
      * destruct (Hr x Hx) as [H1 H2]. split; [exact H1|].
        apply lookup_insert_is_Some'. auto.
      * cbn. split; [eauto|]. apply lookup_insert_is_Some'. auto.
    + intros c bk'. rewrite lookup_insert_Some, filter_last.
      unfold of_book at 2. cbn [Borrowing.book_code].
      intros [[<- <-]|[Hne Hc]].
      * rewrite String.eqb_refl, length_app. cbn.
        rewrite (Hcnt b bk Hb). lia.
      * destruct (String.eqb_spec b c) as [?|_]; [congruence|].
        rewrite app_nil_r. exact (Hcnt c bk' Hc).
  - unfold first_borrowing in Hbr. apply List.find_some in Hbr as [Hin Hpair].
    apply andb_prop in Hpair as [_ Hbook].
    assert (Hdel : borrowings (returned_db p m b mem bk br db) =
                   List.filter (fun x => negb (has_id (Borrowing.id br) x))
                     (borrowings db)) by (destruct p; reflexivity).
    assert (Hbooks : books (returned_db p m b mem bk br db) =
                     <[b := Book.set_borrowed (Book.borrowed bk - 1) bk]> (books db))
      by apply returned_db_books.
    rewrite Hdel, Hbooks. split.
    + intros x Hx. apply List.filter_In in Hx as [Hx _].
      destruct (Hr x Hx) as [H1 H2]. split.
      * destruct p; cbn; [apply lookup_insert_is_Some'|]; auto.
      * apply lookup_insert_is_Some'. auto.
    + intros c bk'. rewrite lookup_insert_Some.
      pose proof (filter_delete_id (of_book c) _ br Hu Hin) as Hlen.
      intros [[<- <-]|[Hne Hc]].
      * rewrite Hbook in Hlen. cbn. rewrite (Hcnt b bk Hb). lia.
      * unfold of_book at 3 in Hlen. apply String.eqb_eq in Hbook.
        rewrite Hbook in Hlen.
        destruct (String.eqb_spec b c) as [?|_]; [congruence|].
        rewrite (Hcnt c bk' Hc). lia.
Qed.

(** X5: on a store that enforces the foreign keys, any sequence of
    requests keeps the borrowing ids distinct, every borrowing attached to
    a stored member and a stored book, and the borrowed count of every
    book equal to the number of borrowings of that book; borrowed is then
    never negative. *)
Theorem run_consistent rs db :
  consistent db ->
  consistent (run true rs db) /\
  forall c bk, books (run true rs db) !! c = Some bk ->
    Book.borrowed bk = Z.of_nat (length (book_borrowings c (run true rs db))) /\
    0 <= Book.borrowed bk.
Proof.
  intros H.
  assert (Hc : consistent (run true rs db)).
  { revert H. apply run_preserves. intros today d d'. apply step_consistent. }
  split; [exact Hc|]. intros c bk Hbk.
  destruct Hc as (_ & _ & Hcnt). rewrite (Hcnt c bk Hbk). split; [reflexivity|lia].
Qed.

Lemma run_consistent_witness :
  consistent (run true sample_requests empty_db) /\
  forall c bk, books (run true sample_requests empty_db) !! c = Some bk ->
    Book.borrowed bk =
      Z.of_nat (length (book_borrowings c (run true sample_requests empty_db))) /\
    0 <= Book.borrowed bk.
Proof. apply (run_consistent sample_requests empty_db). compute_done. Defined.

(** ** Members *)

Lemma member_code_of_inj (k n : nat) : member_code_of k = member_code_of n -> k = n.
Proof.
  unfold member_code_of, String.append. cbn. intros [= H].
  apply format03_inj, H.
Qed.

Lemma sequential_next_free db :
  sequential_members db ->
  members db !! member_code_of (size (members db) + 1) = None.
Proof.
  unfold sequential_members. intros Hseq.
  apply not_elem_of_dom. rewrite Hseq.
  rewrite elem_of_list_to_set, list_elem_of_In, List.in_map_iff.
  intros (k & Hk & Hin). apply member_code_of_inj in Hk.
  apply List.in_seq in Hin. lia.
Qed.

Lemma step_sequential_members fk today db db' :
  step fk today db db' -> sequential_members db -> sequential_members db'.
Proof.
  unfold sequential_members. intros Hstep Hseq.
  destruct Hstep as [|c t a s i Hc|c t a s bk Hc|c bk Hc Hfk|n Hc
                     |m b mem bk Hm Hb Hstock Hheld Hpen Hdup Hfresh
                     |m b mem bk br p Hm Hb Hbr Hp]; try exact Hseq.
  - cbn. rewrite dom_insert_L, (map_size_insert_None _ _ _ Hc).
    replace (S (size (members db))) with (size (members db) + 1)%nat by lia.
    rewrite List.seq_app, map_app, list_to_set_app_L, <- Hseq. cbn.
    replace (1 + size (members db))%nat with (size (members db) + 1)%nat by lia.
    rewrite (right_id_L ∅ (∪)). apply (comm_L (∪)).
  - destruct p as [d|]; [|exact Hseq].
    rewrite returned_db_members_some, dom_insert_L.
    rewrite (map_size_insert_Some _ _ _ (mk_is_Some _ _ Hm)), <- Hseq.
    apply subseteq_union_1_L, singleton_subseteq_l, (elem_of_dom_2 _ _ _ Hm).
Qed.

(** X6: when the member codes are those of the first creations, as on an
    empty table, they stay so through any sequence of requests, and
    creating a member then always succeeds with the next code and stores
    the member with no penalty. *)
Theorem run_sequential_members fk rs db n :
  sequential_members db ->
  sequential_members (run fk rs db) /\
  (let db' := run fk rs db in
   let c := member_code_of (size (members db') + 1) in
   fst (create_member n db') = Return (member_created_response c) /\
   members (snd (create_member n db')) !! c = Some (Member.mk n None)).
Proof.
  intros H.
  assert (Hs : sequential_members (run fk rs db)).
  { revert H. apply run_preserves. intros today d d'. apply step_sequential_members. }
  split; [exact Hs|]. cbn zeta.
  rewrite create_member_unfold, (sequential_next_free _ Hs). cbn.
  split; [reflexivity|apply lookup_insert_eq].
Qed.

Lemma run_sequential_members_witness :
  sequential_members (run false sample_requests empty_db) /\
  (let db' := run false sample_requests empty_db in
   let c := member_code_of (size (members db') + 1) in
   fst (create_member "Budi" db') = Return (member_created_response c) /\
   members (snd (create_member "Budi" db')) !! c = Some (Member.mk "Budi" None)).
Proof.
  apply (run_sequential_members false sample_requests empty_db "Budi").
  compute_done.
Defined.

(** X7: no request removes a member or changes a member's name: a member
    of the store is still a member, under the same name, after any
    sequence of requests. *)
Theorem run_keeps_members fk rs db c mem :
  members db !! c = Some mem ->
  exists mem', members (run fk rs db) !! c = Some mem' /\
               Member.name mem' = Member.name mem.
Proof.
  intros Hc.
  apply (run_preserves fk
           (fun d => exists mem', members d !! c = Some mem' /\
                                  Member.name mem' = Member.name mem)).
  - intros today d d' Hstep (mem0 & Hm0 & Hname).
    destruct Hstep as [|c1 t a s i Hc1|c1 t a s bk Hc1|c1 bk Hc1 Hfk|n Hc1
                     |m b mem1 bk Hm Hb Hstock Hheld Hpen Hdup Hfresh
                     |m b mem1 bk br p Hm Hb Hbr Hp];
      try (exists mem0; split; [exact Hm0|exact Hname]).
    + exists mem0. split; [|exact Hname]. cbn.
      rewrite lookup_insert_ne; [exact Hm0|congruence].
    + destruct p as [d0|]; [|exists mem0; split; [exact Hm0|exact Hname]].
      rewrite returned_db_members_some.
      destruct (decide (m = c)) as [->|Hne].
      * rewrite lookup_insert_eq. eexists. split; [reflexivity|].
        cbn. congruence.
      * rewrite lookup_insert_ne by exact Hne. exists mem0. auto.
  - exists mem. auto.
Qed.

Lemma run_keeps_members_witness :
  exists mem', members (run false sample_requests sample_db) !! "M003" = Some mem' /\
               Member.name mem' = Member.name putri.
Proof.
  apply (run_keeps_members false sample_requests sample_db "M003" putri).
  vm_compute. reflexivity.
Defined.

(** ** Responses *)

Lemma app_fst h db : fst (app h db) = respond (fst (h db)).
Proof. unfold app. destruct (h db). reflexivity. Qed.

Lemma app_snd h db : snd (app h db) = snd (h db).
Proof. unfold app. destruct (h db). reflexivity. Qed.

Ltac case_matches :=
  repeat match goal with
         | |- context [match ?x with _ => _ end] => destruct x eqn:?
         end.


(** X9: a request that is not answered 200 leaves the three tables as
    they were, except a creation of a book, which has then either stored
    nothing or stored the new book with an empty image. *)
Theorem failed_request_changes_nothing fk today r db :
  status_code (fst (app (route fk today r) db)) <> 200 ->
  match r with
  | CreateBook c t a s l =>
      snd (route fk today r db) = db \/
      (books db !! c = None /\ snd (route fk today r db) = created_db c t a s db)
  | _ => snd (route fk today r db) = db
  end.
Proof.
  rewrite app_fst.
  destruct r as [c t a s l|c t a s|c|n|m b|m b]; cbn [route];
    [rewrite create_book_unfold | rewrite update_book_unfold
    | rewrite delete_book_unfold | rewrite create_member_unfold
    | rewrite borrow_book_unfold | rewrite return_book_unfold];
    case_matches; cbn; intros Hst;
    try reflexivity; try (left; reflexivity); try (right; split; reflexivity);
    exfalso; apply Hst; reflexivity.
Qed.

Lemma failed_request_changes_nothing_witness :
  snd (route true today0 (DeleteBook "TW-11") sample_db) = sample_db.
Proof.
  apply (failed_request_changes_nothing true today0 (DeleteBook "TW-11") sample_db).
  vm_compute. discriminate.
Defined.

(** ** A penalty and the next borrowing *)

(** X10: after a successful return of a borrowing made d > 7 days before
    today, a borrowing by the same member on day t that reaches the
    penalty check is rejected with MemberPenalized exactly when
    t < today + 3 * (d - 7). *)
Theorem overdue_return_blocks_borrowing today m b db r db' br t b2 bk2 :
  return_book today m b db = (Return r, db') ->
  first_borrowing m b db = Some br ->
  7 < today - Borrowing.borrowed_at br ->
  books db' !! b2 = Some bk2 ->
  Book.borrowed bk2 < Book.stock bk2 ->
  (length (member_borrowings m db') < 2)%nat ->
  (fst (borrow_book t m b2 db') = Raise MemberPenalized <->
   t < today + 3 * (today - Borrowing.borrowed_at br - 7)).
Proof.
  intros Hret Hbr Hd Hb2 Hstock Hheld.
  destruct (return_book_inv _ _ _ _ _ _ Hret)
    as (mem & bk & br' & Hm & Hb & Hbr' & -> & Hcases).
  rewrite Hbr in Hbr'. injection Hbr' as <-.
  destruct Hcases as [[Hle _]|[_ ->]]; [unfold days_overdue in Hle; lia|].
  rewrite borrow_book_unfold, returned_db_members_some, lookup_insert_eq, Hb2.
  destruct (Z.leb_spec (Book.stock bk2) (Book.borrowed bk2)) as [?|_]; [lia|].
  destruct (Nat.leb_spec 2 (length (member_borrowings m
              (returned_db (Some (today + days_overdue today br * 3)) m b mem bk br db))))
    as [?|_]; [lia|].
  unfold penalized, days_overdue. cbn [Member.penalty_end_date Member.set_penalty_end_date].
  rewrite Z.gtb_ltb.
  destruct (Z.ltb_spec t (today + (today - Borrowing.borrowed_at br - 7) * 3)) as [Hlt|Hge].
  - cbn. split; [lia|reflexivity].
  - split; [|lia].
    destruct (first_borrowing m b2 _); [discriminate|].
    destruct (existsb _ _); discriminate.
Qed.

Lemma overdue_return_blocks_borrowing_witness :
  fst (borrow_book (today0 + 23) "M003" "JK-45"
         (snd (return_book today0 "M003" "TW-11" (lent_db 15))))
    = Raise MemberPenalized <->
  today0 + 23 < today0 + 3 * (today0 - (today0 - 15) - 7).
Proof.
  apply (overdue_return_blocks_borrowing today0 "M003" "TW-11" (lent_db 15)
           returned_response _ (Borrowing.mk "B001" "M003" "TW-11" (today0 - 15))
           (today0 + 23) "JK-45" harry_potter);
    vm_compute; solve [reflexivity | lia].
Defined.

(** ** A borrowing id that is in use *)

(** X11: when every precondition of a borrowing holds but the id made
    from the number of rows is already the id of a borrowing, which a
    return of an older borrowing brings about, the borrowing is answered
    with the generic 500 and nothing is stored. *)
Theorem borrow_id_collision today m b db :
  first_failure today m b db = None ->
  existsb (has_id (next_borrowing_id db)) (borrowings db) = true ->
  app (borrow_book today m b) db = (InternalError, db).
Proof.
  intros Hok Hused. rewrite first_failure_unfold in Hok.
  unfold app. rewrite borrow_book_unfold.
  destruct (members db !! m) as [mem|]; [|discriminate].
  destruct (books db !! b) as [bk|]; [|discriminate].
  destruct (Book.stock bk <=? Book.borrowed bk); [discriminate|].
  destruct (2 <=? length (member_borrowings m db))%nat; [discriminate|].
  destruct (penalized today mem); [discriminate|].
  destruct (first_borrowing m b db); [discriminate|].
  rewrite Hused. reflexivity.
Qed.

Lemma borrow_id_collision_witness :
  app (borrow_book (today0 + 1) "M001" "TW-11")
      (run true collision_requests empty_db)
  = (InternalError, run true collision_requests empty_db).
Proof.
  apply (borrow_id_collision (today0 + 1) "M001" "TW-11"
           (run true collision_requests empty_db));
    vm_compute; reflexivity.
Defined.

(** ** Creating a book *)




(** X13: creating a book under a code that is in use is answered with the
    generic 500 whatever the lookup would give, and the stored book and
    everything else stay as they were. *)
Theorem create_book_existing_code c t a s l db bk :
  books db !! c = Some bk ->
  app (create_book c t a s l) db = (InternalError, db) /\
  books (snd (app (create_book c t a s l) db)) !! c = Some bk.
Proof.
  intros Hc. unfold app. rewrite create_book_unfold, Hc. cbn.
  split; [reflexivity|exact Hc].
Qed.

Lemma create_book_existing_code_witness :
  app (create_book "JK-45" "Another title" "Another author" 9
         (LookupJson (mkSearch (Some 1) (Some [mkDoc (Some 42)])))) sample_db
    = (InternalError, sample_db) /\
  books (snd (app (create_book "JK-45" "Another title" "Another author" 9
                     (LookupJson (mkSearch (Some 1) (Some [mkDoc (Some 42)]))))
                sample_db)) !! "JK-45" = Some harry_potter.
Proof.
  apply (create_book_existing_code "JK-45" "Another title" "Another author" 9
           (LookupJson (mkSearch (Some 1) (Some [mkDoc (Some 42)])))
           sample_db harry_potter).
  vm_compute. reflexivity.
Defined.

(** ** Updating a book *)


(** ** The effect of a borrowing *)

(** X15: a successful borrowing appends exactly one borrowing, carrying
    the id given in the response, the member, the book and today's date;
    it raises the book's borrowed count by one and keeps its title,
    author, stock and image; the other books and all members are
    untouched. *)
Theorem borrow_book_effect today m b db r db' :
  borrow_book today m b db = (Return r, db') ->
  exists i bk,
    content r = [("status_code", JInt 200); ("message", JStr "Book borrowed");
                 ("borrowing_id", JStr i)] /\
    borrowings db' = borrowings db ++ [Borrowing.mk i m b today] /\
    books db !! b = Some bk /\
    books db' !! b = Some (Book.mk (Book.title bk) (Book.author bk) (Book.stock bk)
                             (Book.borrowed bk + 1) (Book.image bk)) /\
    (forall c, c <> b -> books db' !! c = books db !! c) /\
    members db' = members db.
Proof.
  intros Hres.
  destruct (borrow_book_inv _ _ _ _ _ _ Hres)
    as (mem & bk & _ & Hb & _ & _ & _ & _ & _ & -> & ->).
  exists (next_borrowing_id db), bk.
  split; [reflexivity|]. split; [reflexivity|]. split; [exact Hb|].
  split; [apply borrowed_db_book|]. split; [|reflexivity].
  intros c Hne. unfold borrowed_db, update_book_row, set_books. cbn.
  apply lookup_insert_ne. congruence.
Qed.

Lemma borrow_book_effect_witness :
  exists i bk,
    content (borrowed_response "B002") =
      [("status_code", JInt 200); ("message", JStr "Book borrowed");
       ("borrowing_id", JStr i)] /\
    borrowings (snd (borrow_book today0 "M001" "JK-45" sample_db)) =
      borrowings sample_db ++ [Borrowing.mk i "M001" "JK-45" today0] /\
    books sample_db !! "JK-45" = Some bk /\
    books (snd (borrow_book today0 "M001" "JK-45" sample_db)) !! "JK-45" =
      Some (Book.mk (Book.title bk) (Book.author bk) (Book.stock bk)
              (Book.borrowed bk + 1) (Book.image bk)) /\
    (forall c, c <> "JK-45" ->
       books (snd (borrow_book today0 "M001" "JK-45" sample_db)) !! c
         = books sample_db !! c) /\
    members (snd (borrow_book today0 "M001" "JK-45" sample_db)) = members sample_db.
Proof.
  apply (borrow_book_effect today0 "M001" "JK-45" sample_db).
  vm_compute. reflexivity.
Defined.

(** ** The row a return deletes *)

Lemma same_id_same_row (l : list Borrowing.t) (x y : Borrowing.t) :
  NoDup (map Borrowing.id l) ->
  In x l -> In y l -> Borrowing.id x = Borrowing.id y -> x = y.
Proof.
  induction l as [|z l IH]; cbn; [intros _ []|].
  intros Hnd Hx Hy Hf. apply NoDup_cons in Hnd as [Hz Hl].
  destruct Hx as [->|Hx], Hy as [->|Hy]; auto.
  - exfalso. apply Hz. rewrite Hf.
    apply list_elem_of_In, (List.in_map Borrowing.id), Hy.
  - exfalso. apply Hz. rewrite <- Hf.
    apply list_elem_of_In, (List.in_map Borrowing.id), Hx.
Qed.

(** X16: on a table with distinct ids, a successful return deletes the
    borrowing it found and no other: the borrowings left are the others,
    their number drops by one, and so does the number the member holds. *)
Theorem return_book_removes_one today m b db r db' br :
  unique_ids db ->
  return_book today m b db = (Return r, db') ->
  first_borrowing m b db = Some br ->
  (forall x, In x (borrowings db') <-> In x (borrowings db) /\ x <> br) /\
  (length (borrowings db') + 1 = length (borrowings db))%nat /\
  (length (member_borrowings m db') + 1 = length (member_borrowings m db))%nat.
Proof.
  intros Hu Hret Hbr.
  destruct (return_book_inv _ _ _ _ _ _ Hret)
    as (mem & bk & br' & _ & _ & Hbr' & _ & Hcases).
  rewrite Hbr in Hbr'. injection Hbr' as <-.
  assert (Hdel : borrowings db' =
                 List.filter (fun x => negb (has_id (Borrowing.id br) x))
                   (borrowings db))
    by (destruct Hcases as [[_ ->]|[_ ->]]; reflexivity).
  unfold first_borrowing in Hbr. apply List.find_some in Hbr as [Hin Hpair].
  apply andb_prop in Hpair as [Hmem _].
  unfold member_borrowings. rewrite Hdel. split; [|split].
  - intros x. rewrite List.filter_In. unfold has_id.
    split; intros [Hx Hne]; (split; [exact Hx|]).
    + intros ->. rewrite String.eqb_refl in Hne. discriminate.
    + destruct (String.eqb_spec (Borrowing.id x) (Borrowing.id br)) as [Heq|_];
        [|reflexivity].
      exfalso. apply Hne. exact (same_id_same_row _ _ _ Hu Hx Hin Heq).
  - assert (Hall : forall l : list Borrowing.t, List.filter (fun _ => true) l = l)
      by (intros l; induction l as [|y l IH]; cbn; congruence).
    pose proof (filter_delete_id (fun _ => true) _ br Hu Hin) as Hlen.
    rewrite !Hall in Hlen. lia.
  - pose proof (filter_delete_id (of_member m) _ br Hu Hin) as Hlen.
    rewrite Hmem in Hlen. lia.
Qed.

Lemma return_book_removes_one_witness :
  (forall x, In x (borrowings (snd (return_book today0 "M003" "TW-11" (lent_db 3))))
             <-> In x (borrowings (lent_db 3)) /\
                 x <> Borrowing.mk "B001" "M003" "TW-11" (today0 - 3)) /\
  (length (borrowings (snd (return_book today0 "M003" "TW-11" (lent_db 3)))) + 1
   = length (borrowings (lent_db 3)))%nat /\
  (length (member_borrowings "M003"
             (snd (return_book today0 "M003" "TW-11" (lent_db 3)))) + 1
   = length (member_borrowings "M003" (lent_db 3)))%nat.
Proof.
  apply (return_book_removes_one today0 "M003" "TW-11" (lent_db 3) returned_response).
  - compute_done.
  - vm_compute. reflexivity.
  - vm_compute. reflexivity.
Defined.

(** ** Listings *)

Lemma in_map_to_list {A : Type} (m : gmap string A) (c : string) (x : A) :
  In (c, x) (map_to_list m) <-> m !! c = Some x.
Proof. rewrite <- list_elem_of_In. apply elem_of_map_to_list. Qed.

(** X17: the listing of the books is answered 200 and changes nothing; it
    has one item per stored book, no code twice, each item with the
    stored title, author, stock, borrowed and image of its code and with
    available_to_borrow = stock - borrowed, which lies between 0 and
    stock when the book satisfies 0 <= borrowed <= stock. *)
Theorem get_books_listing db :
  exists l,
    get_books db = (Return l, db) /\
    listing_status l = 200 /\
    length (listing_items l) = size (books db) /\
    NoDup (map BookItem.code (listing_items l)) /\
    (forall v, In v (listing_items l) ->
       books db !! BookItem.code v =
         Some (Book.mk (BookItem.title v) (BookItem.author v) (BookItem.stock v)
                 (BookItem.borrowed v) (BookItem.image v)) /\
       BookItem.available_to_borrow v = BookItem.stock v - BookItem.borrowed v) /\
    (forall c bk, books db !! c = Some bk ->
       exists v, In v (listing_items l) /\ BookItem.code v = c) /\
    (stock_invariant db ->
     forall v, In v (listing_items l) ->
       0 <= BookItem.available_to_borrow v <= BookItem.stock v).
Proof.
  eexists. split; [reflexivity|]. cbn [listing_status listing_items].
  split; [reflexivity|].
  split; [rewrite length_map; apply length_map_to_list|].
  assert (Hitems : forall v, In v (map book_item (map_to_list (books db))) ->
            books db !! BookItem.code v =
              Some (Book.mk (BookItem.title v) (BookItem.author v) (BookItem.stock v)
                      (BookItem.borrowed v) (BookItem.image v)) /\
            BookItem.available_to_borrow v = BookItem.stock v - BookItem.borrowed v).
  { intros v Hv. apply List.in_map_iff in Hv as ([c bk] & <- & Hin).
    apply in_map_to_list in Hin. cbn. rewrite Hin. destruct bk. auto. }
  split; [|split; [exact Hitems|split]].
  - rewrite List.map_map.
    assert (Heq : map (fun x => BookItem.code (book_item x)) (map_to_list (books db))
                  = (map_to_list (books db)).*1)
      by (apply List.map_ext; intros [c bk]; reflexivity).
    rewrite Heq. apply NoDup_fst_map_to_list.
  - intros c bk Hc. exists (book_item (c, bk)). split; [|reflexivity].
    apply List.in_map, in_map_to_list, Hc.
  - intros Hinv v Hv. destruct (Hitems v Hv) as [Hc ->].
    pose proof (Hinv _ _ Hc) as Hbk. unfold book_invariant in Hbk. cbn in Hbk. lia.
Qed.

Lemma get_books_listing_witness :
  exists l,
    get_books sample_db = (Return l, sample_db) /\
    forall v, In v (listing_items l) ->
      0 <= BookItem.available_to_borrow v <= BookItem.stock v.
Proof.
  destruct (get_books_listing sample_db) as (l & Hl & _ & _ & _ & _ & _ & H).
  exists l. split; [exact Hl|]. apply H. compute_done.
Defined.

(** X18: the listing of the members is answered 200 and changes nothing;
    it has one item per stored member, each with the stored name and
    penalty date of its code and with total_borrowed equal to the number
    of borrowings of that member, which is at most 2 when no member holds
    more than two. *)
Theorem get_members_listing isoformat db :
  exists l,
    get_members isoformat db = (Return l, db) /\
    listing_status l = 200 /\
    length (listing_items l) = size (members db) /\
    (forall v, In v (listing_items l) ->
       exists mem,
         members db !! MemberItem.code v = Some mem /\
         MemberItem.name v = Member.name mem /\
         MemberItem.penalty_end_date v = isoformat <$> Member.penalty_end_date mem /\
         MemberItem.total_borrowed v =
           Z.of_nat (length (member_borrowings (MemberItem.code v) db))) /\
    (forall c mem, members db !! c = Some mem ->
       exists v, In v (listing_items l) /\ MemberItem.code v = c) /\
    (borrow_limit db ->
     forall v, In v (listing_items l) -> 0 <= MemberItem.total_borrowed v <= 2).
Proof.
  eexists. split; [reflexivity|]. cbn [listing_status listing_items].
  split; [reflexivity|].
  split; [rewrite length_map; apply length_map_to_list|].
  assert (Hitems : forall v,
            In v (map (member_item isoformat db) (map_to_list (members db))) ->
            exists mem,
              members db !! MemberItem.code v = Some mem /\
              MemberItem.name v = Member.name mem /\
              MemberItem.penalty_end_date v = isoformat <$> Member.penalty_end_date mem /\
              MemberItem.total_borrowed v =
                Z.of_nat (length (member_borrowings (MemberItem.code v) db))).
  { intros v Hv. apply List.in_map_iff in Hv as ([c mem] & <- & Hin).
    apply in_map_to_list in Hin. exists mem. cbn.
    destruct (Member.penalty_end_date mem); auto. }
  split; [exact Hitems|split].
  - intros c mem Hc. exists (member_item isoformat db (c, mem)).
    split; [|reflexivity]. apply List.in_map, in_map_to_list, Hc.
  - intros Hlim v Hv. destruct (Hitems v Hv) as (mem & _ & _ & _ & ->).
    pose proof (proj1 (borrow_limit_all db) Hlim (MemberItem.code v)). lia.
Qed.

Lemma get_members_listing_witness :
  exists l,
    get_members str_of_Z (run false sample_requests empty_db)
      = (Return l, run false sample_requests empty_db) /\
    forall v, In v (listing_items l) -> 0 <= MemberItem.total_borrowed v <= 2.
Proof.
  destruct (get_members_listing str_of_Z (run false sample_requests empty_db))
    as (l & Hl & _ & _ & _ & _ & H).
  exists l. split; [exact Hl|]. apply H.
  apply (@bool_decide_unpack _ (borrow_limit_dec _)). vm_compute. exact I.
Defined.

(** X19: the listing of the borrowings is answered 200 and changes
    nothing; its items follow the stored borrowings one for one, each
    with the name of the member and the title of the book its codes name,
    or null where no such row is stored; when every borrowing refers to a
    stored member and book no item has a null name or title. *)
Theorem get_borrowings_listing isoformat db :
  exists l,
    get_borrowings isoformat db = (Return l, db) /\
    listing_status l = 200 /\
    map BorrowingItem.id (listing_items l) = map Borrowing.id (borrowings db) /\
    map BorrowingItem.member_code (listing_items l)
      = map Borrowing.member_code (borrowings db) /\
    map BorrowingItem.book_code (listing_items l)
      = map Borrowing.book_code (borrowings db) /\
    (forall v, In v (listing_items l) ->
       BorrowingItem.member_name v =
         Member.name <$> members db !! BorrowingItem.member_code v /\
       BorrowingItem.book_title v =
         Book.title <$> books db !! BorrowingItem.book_code v) /\
    (referential db ->
     forall v, In v (listing_items l) ->
       is_Some (BorrowingItem.member_name v) /\ is_Some (BorrowingItem.book_title v)).
Proof.
  eexists. split; [reflexivity|]. cbn [listing_status listing_items].
  split; [reflexivity|].
  rewrite !List.map_map. cbn [borrowing_item BorrowingItem.id
    BorrowingItem.member_code BorrowingItem.book_code].
  split; [reflexivity|]. split; [reflexivity|]. split; [reflexivity|].
  assert (Hitems : forall v, In v (map (borrowing_item isoformat db) (borrowings db)) ->
            BorrowingItem.member_name v =
              Member.name <$> members db !! BorrowingItem.member_code v /\
            BorrowingItem.book_title v =
              Book.title <$> books db !! BorrowingItem.book_code v).
  { intros v Hv. apply List.in_map_iff in Hv as (x & <- & _).
    unfold borrowing_item, first_by_code. cbn.
    destruct (members db !! Borrowing.member_code x);
      destruct (books db !! Borrowing.book_code x); auto. }
  split; [exact Hitems|].
  intros Href v Hv. destruct (Hitems v Hv) as [-> ->].
  apply List.in_map_iff in Hv as (x & <- & Hx).
  cbn [borrowing_item BorrowingItem.member_code BorrowingItem.book_code].
  destruct (proj1 (referential_all db) Href x Hx) as [[mem Hm] [bk Hb]].
  rewrite Hm, Hb. cbn. split; eexists; reflexivity.
Qed.

Lemma get_borrowings_listing_witness :
  exists l,
    get_borrowings str_of_Z (run true sample_requests empty_db)
      = (Return l, run true sample_requests empty_db) /\
    forall v, In v (listing_items l) ->
      is_Some (BorrowingItem.member_name v) /\ is_Some (BorrowingItem.book_title v).
Proof.
  destruct (get_borrowings_listing str_of_Z (run true sample_requests empty_db))
    as (l & Hl & _ & _ & _ & _ & _ & H).
  exists l. split; [exact Hl|]. apply H.
  apply (@bool_decide_unpack _ (referential_dec _)). vm_compute. exact I.
Defined.

Lemma format03_roundtrip_witness :
  parse_nat (format03 14) = Some 14%nat /\
  (3 <= String.length (format03 14))%nat /\
  (format03 14 = "014" -> 14 = 14)%nat.
Proof.
  destruct (format03_roundtrip 14) as (H1 & H2 & H3).
  split; [exact H1|]. split; [exact H2|].
  intros _. apply (H3 14%nat). reflexivity.
Defined.


(** ** When a return succeeds *)


